(** * NetCDF viewer: georeferencing and raster normalisation

    A shallow embedding of [netcdf_viewer_dialog.py] (class
    [NetCDFViewerDialog]): [get_projection_info], [get_geotransform] and
    [visualize], with the properties the specification states about them.

    Numbers are exact rationals ([Q]).  Python raises exceptions; a fallible
    computation returns a [result].  [visualize] also acts on the host (the
    message bar, the temporary file, the GDAL raster, the layer registry):
    it is written in a state-and-exception monad over a [world]. *)

From Stdlib Require Import QArith Qabs Ascii String.
From stdpp Require Import gmap strings list fin_maps pretty.

Local Open Scope string_scope.

(** ** Exceptions and fallible computations *)

Inductive exn :=
| AttributeError
| IndexError
| KeyError (key : string)
| TypeError
| ValueError
| RuntimeError (msg : string).

Inductive result (A : Type) :=
| Ok (a : A)
| Raise (e : exn).
Arguments Ok {A} a.
Arguments Raise {A} e.

#[export] Instance result_ret : MRet result := @Ok.
#[export] Instance result_bind : MBind result := fun A B f m =>
  match m with
  | Ok a => f a
  | Raise e => Raise e
  end.

(** ** The dataset abstraction *)

(** An attribute read through netCDF4 is a number or a text. *)
Inductive attr_value :=
| ANum (q : Q)
| AText (s : string).

(** An N-dimensional array: its shape and its cells in row-major order. *)
Record ndarray := { shape : list nat; cells : list Q }.

(** A variable: [var.name], [var.dimensions], its attributes
    ([var.ncattrs()] with [getattr]) and the array [var[:]] returns;
    [var.shape] is the shape of that array. *)
Record variable := {
  v_name : string;
  v_dimensions : list string;
  v_attrs : gmap string attr_value;
  v_data : ndarray
}.

(** [self.dataset.variables] *)
Record dataset := { variables : gmap string variable }.

(** [hasattr(var, 'axis') and getattr(var, 'axis') == letter] *)
Definition axis_is (var : variable) (letter : string) : bool :=
  match v_attrs var !! "axis" with
  | Some (AText s) => String.eqb s letter
  | _ => false
  end.

(** [o is None] *)
Definition is_none {A : Type} (o : option A) : bool :=
  match o with
  | None => true
  | Some _ => false
  end.

(** [name in names] for a Python list of strings *)
Definition py_in (name : string) (names : list string) : bool :=
  existsb (String.eqb name) names.

(** ** [str.split()]: split at runs of white space *)

Definition is_space (c : ascii) : bool :=
  let n := nat_of_ascii c in
  ((9 <=? n)%nat && (n <=? 13)%nat) || ((28 <=? n)%nat && (n <=? 32)%nat).

Definition flush (cur : string) (rest : list string) : list string :=
  match cur with
  | EmptyString => rest
  | _ => cur :: rest
  end.

Fixpoint split_from (s cur : string) : list string :=
  match s with
  | EmptyString => flush cur []
  | String c s' =>
      if is_space c then flush cur (split_from s' "")
      else split_from s' (cur ++ String c "")
  end.

Definition split (s : string) : list string := split_from s "".

(** ** Coordinate resolution and the geotransform ([get_geotransform]) *)

Definition x_coords : list string :=
  ["x"; "lon"; "longitude"; "projection_x_coordinate"].
Definition y_coords : list string :=
  ["y"; "lat"; "latitude"; "projection_y_coordinate"].

(** The four locals [x_var], [y_var], [x_name], [y_name]. *)
Record axes := {
  x_var : option variable;
  x_name : option string;
  y_var : option variable;
  y_name : option string
}.

Definition no_axes : axes :=
  {| x_var := None; x_name := None; y_var := None; y_name := None |}.

(** The body shared by the two loops: one candidate name is looked up in
    the dataset and classified as X, else as Y, else left alone. *)
Definition classify (ds : dataset) (st : axes) (name : string) : axes :=
  match variables ds !! name with
  | Some coord_var =>
      if py_in name x_coords || axis_is coord_var "X" then
        {| x_var := Some coord_var; x_name := Some name;
           y_var := y_var st; y_name := y_name st |}
      else if py_in name y_coords || axis_is coord_var "Y" then
        {| x_var := x_var st; x_name := x_name st;
           y_var := Some coord_var; y_name := Some name |}
      else st
  | None => st
  end.

(** [if hasattr(var, 'coordinates'): for coord_name in var.coordinates.split()].
    A numeric attribute has no [split]. *)
Definition from_coordinates (ds : dataset) (var : variable) : result axes :=
  match v_attrs var !! "coordinates" with
  | Some (AText s) => Ok (foldl (classify ds) no_axes (split s))
  | Some (ANum _) => Raise AttributeError
  | None => Ok no_axes
  end.

(** [if x_var is None or y_var is None: for dim in dims] *)
Definition from_dimensions (ds : dataset) (var : variable) (st : axes) : axes :=
  if is_none (x_var st) || is_none (y_var st)
  then foldl (classify ds) st (v_dimensions var)
  else st.

(** *** Slicing the coordinate arrays *)

Definition product (l : list nat) : nat := foldr Nat.mul 1%nat l.

(** [x[0, :]]: the first row; the result drops the leading axis. *)
Definition first_row (a : ndarray) : result ndarray :=
  match shape a with
  | r :: rest =>
      if (r =? 0)%nat then Raise IndexError
      else Ok {| shape := rest; cells := take (product rest) (cells a) |}
  | [] => Raise IndexError
  end.

(** Every [stride] cells, the first [width] of them. *)
Fixpoint pick (rows stride width : nat) (cs : list Q) : list Q :=
  match rows with
  | O => []
  | S k => take width cs ++ pick k stride width (drop stride cs)
  end.

(** [y[:, 0]]: the first column; the result drops the second axis. *)
Definition first_column (a : ndarray) : result ndarray :=
  match shape a with
  | r :: c :: rest =>
      if (c =? 0)%nat then Raise IndexError
      else Ok {| shape := r :: rest;
                 cells := pick r (c * product rest) (product rest) (cells a) |}
  | _ => Raise IndexError
  end.

(** [len(x)], [x[0]], [x[1]], [x[-1]] want a one-dimensional [x].  A
    zero-dimensional array has no [len()].  With two or more dimensions left
    (a coordinate variable of three or more), [x[1] > x[0]] and [x[0]] are
    arrays, which [if] and [float()] refuse; the model takes that error also
    where NumPy still converts a one-cell array with a deprecation warning. *)
Definition as_sequence (a : ndarray) : result (list Q) :=
  match shape a with
  | [] => Raise TypeError
  | [_] => Ok (cells a)
  | _ => Raise TypeError
  end.

(** [x = x_var[:]; if len(x.shape) > 1: x = x[0, :]] *)
Definition read_x (x_var : variable) : result ndarray :=
  let x := v_data x_var in
  if (1 <? length (shape x))%nat then first_row x else Ok x.

(** [y = y_var[:]; if len(y.shape) > 1: y = y[:, 0]] *)
Definition read_y (y_var : variable) : result ndarray :=
  let y := v_data y_var in
  if (1 <? length (shape y))%nat then first_column y else Ok y.

(** *** The affine transform *)

(** [a > b] *)
Definition Qgtb (a b : Q) : bool := negb (Qle_bool a b).

(** [c[1] > c[0] if len(c) > 1 else True] *)
Definition ascending (c : list Q) : bool :=
  match c with
  | c0 :: c1 :: _ => Qgtb c1 c0
  | _ => true
  end.

(** [abs(c[1] - c[0]) if len(c) > 1 else 1] *)
Definition pixel_size (c : list Q) : Q :=
  match c with
  | c0 :: c1 :: _ => Qabs (c1 - c0)
  | _ => 1%Q
  end.

(** [float(c[i])]: an index past the end raises. *)
Definition item (c : list Q) (i : nat) : result Q :=
  match c !! i with
  | Some q => Ok q
  | None => Raise IndexError
  end.

(** [float(c[-1])] *)
Definition item_last (c : list Q) : result Q :=
  match last c with
  | Some q => Ok q
  | None => Raise IndexError
  end.

(** The default height of a GOES-R satellite, in metres. *)
Definition default_height : Q := 35786023%Q.

(** Lines 299-310: with a [goes_imager_projection] variable in the dataset
    the coordinates are radians and are multiplied by the satellite height.
    An array times a text raises. *)
Definition goes_scale (ds : dataset) (x y : list Q) : result (list Q * list Q) :=
  match variables ds !! "goes_imager_projection" with
  | Some proj_var =>
      match default (ANum default_height)
                    (v_attrs proj_var !! "perspective_point_height") with
      | ANum satellite_height =>
          Ok (map (fun v => v * satellite_height)%Q x,
              map (fun v => v * satellite_height)%Q y)
      | AText _ => Raise TypeError
      end
  | None => Ok (x, y)
  end.

(** Lines 312-335: pixel sizes, corners and the six-element list. *)
Definition corners (x_ascending y_ascending : bool) (x y : list Q) : result (list Q) :=
  let pixel_width := pixel_size x in
  let pixel_height := pixel_size y in
  x_first ← item x 0;
  '(x_min, pixel_width) ←
     (if negb x_ascending
      then x_last ← item_last x; Ok (x_last, (- pixel_width)%Q)
      else Ok (x_first, pixel_width));
  y_first ← item y 0;
  '(y_max, pixel_height) ←
     (if y_ascending
      then y_last ← item_last y; Ok (y_last, (- pixel_height)%Q)
      else Ok (y_first, pixel_height));
  Ok [x_min; pixel_width; 0%Q; y_max; 0%Q; (- pixel_height)%Q].

(** Lines 249-283: the two searches, one after the other. *)
Definition resolve_axes (ds : dataset) (var : variable) : result axes :=
  st ← from_coordinates ds var;
  Ok (from_dimensions ds var st).

(** Lines 295-335: from the two coordinate sequences to the transform. *)
Definition build (ds : dataset) (x y : list Q) : result (list Q) :=
  let x_ascending := ascending x in
  let y_ascending := ascending y in
  '(x, y) ← goes_scale ds x y;
  corners x_ascending y_ascending x y.

(** Lines 285-335, for the two coordinate variables found. *)
Definition transform_of (ds : dataset) (x_var y_var : variable) : result (list Q) :=
  x ← read_x x_var;
  y ← read_y y_var;
  x ← as_sequence x;
  y ← as_sequence y;
  build ds x y.

(** The body of the [try] block. *)
Definition get_geotransform_try (ds : dataset) (var : variable)
  : result (option (list Q) * option (option string * option string)) :=
  st ← resolve_axes ds var;
  match x_var st, y_var st with
  | Some xv, Some yv =>
      geotransform ← transform_of ds xv yv;
      Ok (Some geotransform, Some (x_name st, y_name st))
  | _, _ => Ok (None, None)
  end.

(** [except Exception: return None, None] *)
Definition get_geotransform (ds : dataset) (var : variable)
  : option (list Q) * option (option string * option string) :=
  match get_geotransform_try ds var with
  | Ok r => r
  | Raise _ => (None, None)
  end.

(** ** Projection classification ([get_projection_info]) *)

Definition proj_vars : list string :=
  ["crs"; "transverse_mercator"; "projection"; "lambert_conformal_conic";
   "goes_imager_projection"; "polar_stereographic"; "grid_mapping"].

(** The state of an [osr.SpatialReference] object: empty as constructed, or
    what the one call made on it has put there. *)
Inductive srs :=
| SrsEmpty
| SrsEPSG (code : Z)
| SrsTM (lat_0 lon_0 k fe fn : Q)
| SrsLCC (sp1 sp2 lat_0 lon_0 fe fn : Q)
| SrsGeos (h lon_0 : attr_value)
| SrsPS (lat_0 lon_0 k fe fn : Q).

(** [for var_name in proj_vars: if var_name in self.dataset.variables: ... break] *)
Fixpoint find_proj_var (ds : dataset) (names : list string) : option variable :=
  match names with
  | [] => None
  | var_name :: names' =>
      match variables ds !! var_name with
      | Some proj_var => Some proj_var
      | None => find_proj_var ds names'
      end
  end.

(** [proj_attrs.get(key, d)] handed to a parameter of C type [double]: a
    text is refused. *)
Definition get_double (proj_attrs : gmap string attr_value) (key : string) (d : Q)
  : result Q :=
  match default (ANum d) (proj_attrs !! key) with
  | ANum q => Ok q
  | AText _ => Raise TypeError
  end.

(** The dispatch on [grid_mapping_name]; a name that is none of the five,
    or no name, leaves the object as constructed. *)
Definition build_srs (proj_attrs : gmap string attr_value) : result srs :=
  match proj_attrs !! "grid_mapping_name" with
  | Some (AText mapping_name) =>
      if String.eqb mapping_name "latitude_longitude" then Ok (SrsEPSG 4326)
      else if String.eqb mapping_name "transverse_mercator" then
        lat_0 ← get_double proj_attrs "latitude_of_projection_origin" 0;
        lon_0 ← get_double proj_attrs "longitude_of_central_meridian" 0;
        k ← get_double proj_attrs "scale_factor_at_central_meridian" 1;
        fe ← get_double proj_attrs "false_easting" 0;
        fn ← get_double proj_attrs "false_northing" 0;
        Ok (SrsTM lat_0 lon_0 k fe fn)
      else if String.eqb mapping_name "lambert_conformal_conic" then
        sp1 ← get_double proj_attrs "standard_parallel_1" 30;
        sp2 ← get_double proj_attrs "standard_parallel_2" 60;
        lat_0 ← get_double proj_attrs "latitude_of_projection_origin" 0;
        lon_0 ← get_double proj_attrs "longitude_of_central_meridian" 0;
        fe ← get_double proj_attrs "false_easting" 0;
        fn ← get_double proj_attrs "false_northing" 0;
        Ok (SrsLCC sp1 sp2 lat_0 lon_0 fe fn)
      else if String.eqb mapping_name "geostationary" then
        Ok (SrsGeos
              (default (ANum 0) (proj_attrs !! "perspective_point_height"))
              (default (ANum 0) (proj_attrs !! "longitude_of_projection_origin")))
      else if String.eqb mapping_name "polar_stereographic" then
        lat_0 ← get_double proj_attrs "latitude_of_projection_origin" 90;
        lon_0 ← get_double proj_attrs "longitude_of_projection_origin" 0;
        k ← get_double proj_attrs "scale_factor" 1;
        fe ← get_double proj_attrs "false_easting" 0;
        fn ← get_double proj_attrs "false_northing" 0;
        Ok (SrsPS lat_0 lon_0 k fe fn)
      else Ok SrsEmpty
  | _ => Ok SrsEmpty
  end.

(** Returns [(srs, var_name)], or [(None, None)] without a projection
    variable. *)
Definition get_projection_info (ds : dataset)
  : result (option srs * option string) :=
  match find_proj_var ds proj_vars with
  | None => Ok (None, None)
  | Some proj_var =>
      srs ← build_srs (v_attrs proj_var);
      Ok (Some srs, Some (v_name proj_var))
  end.

(** [srs.ExportToWkt()]: the text of an empty spatial reference is empty
    ([None]); any other text stands for the reference it describes. *)
Definition ExportToWkt (s : srs) : option srs :=
  match s with
  | SrsEmpty => None
  | _ => Some s
  end.

(** ** The host: Python run time, NumPy, GDAL and QGIS *)

(** What the libraries answer; the code only tests these answers. *)
Record host := {
  (** [float(s)] on a text: its value, or [None] for [ValueError] *)
  float_of_text : string -> option Q;
  (** [astype(np.float32)] on one cell *)
  float32 : Q -> Q;
  (** [var[:]] of the variable to draw, through netCDF4: the exception it
      raises, or the mask of the array it returns (netCDF4 masks fill and
      missing values itself, and has to apply [scale_factor] and
      [add_offset] before it returns) *)
  getitem_mask : variable -> result (list bool);
  (** the path [tempfile.mkstemp(suffix='.tif')] makes *)
  temp_tif : string;
  (** [gdal.GetDriverByName('GTiff')] is not [None] *)
  gtiff_driver : bool;
  (** [driver.Create(temp_tif, xsize, ysize, ...)] is not [None] *)
  create_ok : nat -> nat -> bool;
  (** [out_ds.GetRasterBand(1)] is not [None] *)
  band_ok : bool;
  (** what [band.WriteArray] returns for an array it takes *)
  write_status : Z;
  (** [band.SetNoDataValue] does not raise *)
  nodata_ok : bool;
  (** [layer.isValid()] and [layer.error().summary()] *)
  layer_valid : bool;
  layer_error : string
}.

(** A masked array: each cell with its mask bit. *)
Record masked_array := { ma_shape : list nat; ma_cells : list (Q * bool) }.

(** The GDAL dataset behind the output file. *)
Record raster := {
  r_xsize : nat;
  r_ysize : nat;
  r_projection : option srs;
  r_geotransform : option (list Q);
  r_pixels : option (list Q);
  r_nodata : option Q;
  r_statistics : bool
}.

Inductive file_content :=
| EmptyFile
| RasterFile (r : raster).

Inductive message_text :=
| Text (s : string)
| StrOf (e : exn).

(** [self.iface.messageBar().pushMessage(title, text, level=level)] *)
Record message := { title : string; text : message_text; level : Z }.

Record world := {
  message_bar : list message;
  files : gmap string file_content;
  layers : list (string * string)
}.

(** State and exceptions: what a statement of [visualize] does. *)
Definition M (A : Type) : Type := world -> result A * world.

#[export] Instance M_ret : MRet M := fun A a w => (Ok a, w).
#[export] Instance M_bind : MBind M := fun A B f m w =>
  match m w with
  | (Ok a, w') => f a w'
  | (Raise e, w') => (Raise e, w')
  end.

Definition raise {A : Type} (e : exn) : M A := fun w => (Raise e, w).

Definition lift {A : Type} (r : result A) : M A := fun w => (r, w).

(** [try: body  except Exception as e: handler] *)
Definition try_except {A : Type} (body : M A) (handler : exn -> M A) : M A :=
  fun w =>
    match body w with
    | (Ok a, w') => (Ok a, w')
    | (Raise e, w') => handler e w'
    end.

Definition pushMessage (title : string) (text : message_text) (level : Z) : M unit :=
  fun w =>
    (Ok tt,
     {| message_bar := message_bar w ++ [{| title := title; text := text; level := level |}];
        files := files w;
        layers := layers w |}).

(** [tempfile.mkstemp] makes the file, empty. *)
Definition mkstemp (h : host) : M string :=
  fun w =>
    (Ok (temp_tif h),
     {| message_bar := message_bar w;
        files := <[temp_tif h := EmptyFile]> (files w);
        layers := layers w |}).

Definition new_raster (xsize ysize : nat) : raster :=
  {| r_xsize := xsize; r_ysize := ysize; r_projection := None;
     r_geotransform := None; r_pixels := None; r_nodata := None;
     r_statistics := false |}.

(** [driver.Create(path, xsize, ysize, 1, gdal.GDT_Float32, options)] *)
Definition Create (h : host) (path : string) (xsize ysize : nat) : M bool :=
  fun w =>
    if create_ok h xsize ysize then
      (Ok true,
       {| message_bar := message_bar w;
          files := <[path := RasterFile (new_raster xsize ysize)]> (files w);
          layers := layers w |})
    else (Ok false, w).

(** What the methods of [out_ds] and of its band change. *)
Definition with_projection (wkt : option srs) (r : raster) : raster :=
  {| r_xsize := r_xsize r; r_ysize := r_ysize r; r_projection := wkt;
     r_geotransform := r_geotransform r; r_pixels := r_pixels r;
     r_nodata := r_nodata r; r_statistics := r_statistics r |}.

Definition with_geotransform (geotransform : list Q) (r : raster) : raster :=
  {| r_xsize := r_xsize r; r_ysize := r_ysize r; r_projection := r_projection r;
     r_geotransform := Some geotransform; r_pixels := r_pixels r;
     r_nodata := r_nodata r; r_statistics := r_statistics r |}.

Definition with_pixels (pixels : list Q) (r : raster) : raster :=
  {| r_xsize := r_xsize r; r_ysize := r_ysize r; r_projection := r_projection r;
     r_geotransform := r_geotransform r; r_pixels := Some pixels;
     r_nodata := r_nodata r; r_statistics := r_statistics r |}.

Definition with_nodata (value : Q) (r : raster) : raster :=
  {| r_xsize := r_xsize r; r_ysize := r_ysize r; r_projection := r_projection r;
     r_geotransform := r_geotransform r; r_pixels := r_pixels r;
     r_nodata := Some value; r_statistics := r_statistics r |}.

Definition with_statistics (r : raster) : raster :=
  {| r_xsize := r_xsize r; r_ysize := r_ysize r; r_projection := r_projection r;
     r_geotransform := r_geotransform r; r_pixels := r_pixels r;
     r_nodata := r_nodata r; r_statistics := true |}.

Definition on_file (f : raster -> raster) (c : file_content) : file_content :=
  match c with
  | RasterFile r => RasterFile (f r)
  | EmptyFile => EmptyFile
  end.

(** A method that changes the dataset behind [path]. *)
Definition on_raster (path : string) (f : raster -> raster) : M unit :=
  fun w =>
    (Ok tt,
     {| message_bar := message_bar w;
        files := alter (on_file f) path (files w);
        layers := layers w |}).

Definition SetProjection (path : string) (wkt : option srs) : M unit :=
  on_raster path (with_projection wkt).

Definition SetGeoTransform (path : string) (geotransform : list Q) : M unit :=
  on_raster path (with_geotransform geotransform).

(** [band.WriteArray(data)]: GDAL takes a two-dimensional array that fits
    the band, and writes the cells of a masked array as they are stored. *)
Definition WriteArray (h : host) (path : string) (xsize ysize : nat)
    (data : masked_array) : M Z :=
  match ma_shape data with
  | [rows; cols] =>
      if (cols <=? xsize)%nat && (rows <=? ysize)%nat then
        if (write_status h =? 0)%Z then
          _ ← on_raster path (with_pixels (map fst (ma_cells data)));
          mret 0%Z
        else mret (write_status h)
      else raise ValueError
  | _ => raise ValueError
  end.

(** [try: band.SetNoDataValue(float(fill_value))  except Exception: log] *)
Definition SetNoDataValue (h : host) (path : string) (fill_value : Q) : M unit :=
  if nodata_ok h then on_raster path (with_nodata fill_value) else mret tt.

Definition ComputeStatistics (path : string) : M unit :=
  on_raster path with_statistics.

(** [QgsProject.instance().addMapLayer(layer)] *)
Definition addMapLayer (path layer_name : string) : M unit :=
  fun w =>
    (Ok tt,
     {| message_bar := message_bar w;
        files := files w;
        layers := layers w ++ [(path, layer_name)] |}).

(** ** Normalising the data (lines 381-401 of [visualize]) *)

(** [float(a)] on an attribute value *)
Definition py_float (h : host) (a : attr_value) : result Q :=
  match a with
  | ANum q => Ok q
  | AText s =>
      match float_of_text h s with
      | Some q => Ok q
      | None => Raise ValueError
      end
  end.

(** [_FillValue], else [missing_value], else [-9999.0] *)
Definition read_fill_value (h : host) (var : variable) : result Q :=
  match v_attrs var !! "_FillValue" with
  | Some a => py_float h a
  | None =>
      match v_attrs var !! "missing_value" with
      | Some a => py_float h a
      | None => Ok (-9999)%Q
      end
  end.

(** [data = var[:]] (line 382): the cells of [v_data] under the mask
    netCDF4 returns with them; a cell the mask does not reach is not
    masked. *)
Definition under_mask (a : ndarray) (mask : list bool) : masked_array :=
  {| ma_shape := shape a;
     ma_cells := imap (fun i c => (c, default false (mask !! i))) (cells a) |}.

Definition getitem (h : host) (var : variable) : result masked_array :=
  mask ← getitem_mask h var;
  Ok (under_mask (v_data var) mask).

(** [data.astype(np.float32)]: the mask stays. *)
Definition astype_float32 (h : host) (a : masked_array) : masked_array :=
  {| ma_shape := ma_shape a;
     ma_cells := map (fun c : Q * bool => (float32 h c.1, c.2)) (ma_cells a) |}.

(** [np.ma.masked_equal(data, value)]: the cells equal to [value] are
    masked besides those that are masked already.  The value is compared
    as it is, in double precision (NumPy 2; older releases round it to
    single precision first). *)
Definition masked_equal (a : masked_array) (value : Q) : masked_array :=
  {| ma_shape := ma_shape a;
     ma_cells := map (fun c : Q * bool => (c.1, c.2 || Qeq_bool c.1 value))
                     (ma_cells a) |}.

(** [data * k] and [data + k] on a masked array: a masked cell keeps what
    it stores. *)
Definition ma_mul (data : masked_array) (k : Q) : masked_array :=
  {| ma_shape := ma_shape data;
     ma_cells := map (fun c : Q * bool => if c.2 then c else ((c.1 * k)%Q, false)) (ma_cells data) |}.

Definition ma_add (data : masked_array) (k : Q) : masked_array :=
  {| ma_shape := ma_shape data;
     ma_cells := map (fun c : Q * bool => if c.2 then c else ((c.1 + k)%Q, false)) (ma_cells data) |}.

(** The normalised grid and the fill value that goes with it. *)
Definition normalize (h : host) (var : variable) : result (masked_array * Q) :=
  data ← getitem h var;
  fill_value ← read_fill_value h var;
  scale_factor ← py_float h (default (ANum 1) (v_attrs var !! "scale_factor"));
  add_offset ← py_float h (default (ANum 0) (v_attrs var !! "add_offset"));
  let data := astype_float32 h data in
  let data := masked_equal data fill_value in
  let fill_value := (fill_value * scale_factor + add_offset)%Q in
  let data := ma_add (ma_mul data scale_factor) add_offset in
  Ok (data, fill_value).

(** ** [visualize] *)

(** [os.path.basename]: what follows the last slash. *)
Fixpoint basename_from (s cur : string) : string :=
  match s with
  | EmptyString => cur
  | String c s' =>
      if Ascii.eqb c "/"%char then basename_from s' ""
      else basename_from s' (cur ++ String c "")
  end.

Definition basename (path : string) : string := basename_from path "".

(** [int(data.shape[i])] *)
Definition extent (data : masked_array) (i : nat) : result nat :=
  match ma_shape data !! i with
  | Some n => Ok n
  | None => Raise IndexError
  end.

(** Lines 381-470: the raster written into the temporary file. *)
Definition write_raster_to (h : host) (ds : dataset) (file_path var_name : string)
    (var : variable) (temp_tif : string) : M unit :=
  '(data, fill_value) ← lift (normalize h var);
  if negb (gtiff_driver h) then raise (RuntimeError "Failed to get GTiff driver")
  else
  xsize ← lift (extent data 1);
  ysize ← lift (extent data 0);
  out_ds ← Create h temp_tif xsize ysize;
  if negb out_ds
  then raise (RuntimeError ("Failed to create output dataset at " ++ temp_tif))
  else
  '(srs, grid_mapping) ← lift (get_projection_info ds);
  (* [if srs:] holds for every [SpatialReference] object, also an empty one *)
  _ ← match srs with
      | Some srs => SetProjection temp_tif (ExportToWkt srs)
      | None => mret tt
      end;
  let '(geotransform, coord_names) := get_geotransform ds var in
  _ ← match geotransform with
      | Some geotransform => SetGeoTransform temp_tif geotransform
      | None => mret tt
      end;
  if negb (band_ok h) then raise (RuntimeError "Failed to get raster band")
  else
  write_status ← WriteArray h temp_tif xsize ysize data;
  if negb (write_status =? 0)%Z
  then raise (RuntimeError ("Failed to write array to band: " ++ pretty write_status))
  else
  _ ← SetNoDataValue h temp_tif fill_value;
  _ ← ComputeStatistics temp_tif;
  let layer_name := var_name ++ " from " ++ basename file_path in
  if layer_valid h then addMapLayer temp_tif layer_name
  else pushMessage "Error" (Text ("Failed to create layer: " ++ layer_error h)) 2.

(** Lines 370-470: from the temporary file to the layer. *)
Definition write_raster (h : host) (ds : dataset) (file_path var_name : string)
    (var : variable) : M unit :=
  temp_tif ← mkstemp h;
  write_raster_to h ds file_path var_name var temp_tif.

(** The body of the [try] block. *)
Definition visualize_try (h : host) (ds : dataset) (file_path var_name : string)
  : M unit :=
  if String.eqb var_name "" then mret tt
  else
  match variables ds !! var_name with
  | None => raise (KeyError var_name)
  | Some var =>
      if (length (shape (v_data var)) <? 2)%nat then
        pushMessage "Error"
          (Text ("Variable " ++ var_name ++
                 " must have at least 2 dimensions for visualization")) 2
      else write_raster h ds file_path var_name var
  end.

(** [except Exception as e: pushMessage("Error", str(e), level=2); raise] *)
Definition visualize (h : host) (ds : dataset) (file_path var_name : string)
  : M unit :=
  try_except (visualize_try h ds file_path var_name)
    (fun e => _ ← pushMessage "Error" (StrOf e) 2; raise e).

(** ** Example data *)

Module Example.

(** A Python whose [float()] reads plain decimal texts (sign, digits, one
    point), which is all the examples hold. *)
Definition digit (c : ascii) : option Z :=
  let n := nat_of_ascii c in
  if (48 <=? n)%nat && (n <=? 57)%nat then Some (Z.of_nat (n - 48)) else None.

Fixpoint decimal_from (s : string) (num : Z) (den : positive) (point digits : bool)
  : option Q :=
  match s with
  | EmptyString => if digits then Some (num # den) else None
  | String c s' =>
      if Ascii.eqb c "."%char then
        if point then None else decimal_from s' num den true digits
      else
        match digit c with
        | Some d =>
            decimal_from s' (10 * num + d)%Z (if point then (10 * den)%positive else den)
                         point true
        | None => None
        end
  end.

Definition decimal (s : string) : option Q :=
  match s with
  | String "-"%char s' => Qopp <$> decimal_from s' 0 1 false false
  | String "+"%char s' => decimal_from s' 0 1 false false
  | _ => decimal_from s 0 1 false false
  end.

(** netCDF4 as the examples need it: [var[:]] raises [TypeError] when
    [scale_factor] or [add_offset] is a text, which it cannot multiply or
    add; no cell of the examples is masked. *)
Definition netcdf_mask (var : variable) : result (list bool) :=
  match v_attrs var !! "scale_factor", v_attrs var !! "add_offset" with
  | Some (AText _), _ => Raise TypeError
  | _, Some (AText _) => Raise TypeError
  | _, _ => Ok []
  end.

(** Every other library call succeeds; the cells of the examples are
    small integers, which single precision holds exactly. *)
Definition plain_host : host := {|
  float_of_text := decimal;
  float32 := fun q => q;
  getitem_mask := netcdf_mask;
  temp_tif := "/tmp/tmp0001.tif";
  gtiff_driver := true;
  create_ok := fun _ _ => true;
  band_ok := true;
  write_status := 0;
  nodata_ok := true;
  layer_valid := true;
  layer_error := ""
|}.

Definition fresh_world : world :=
  {| message_bar := []; files := ∅; layers := [] |}.

(** A one-dimensional coordinate variable over its own dimension. *)
Definition coordinate (name : string) (values : list Q) : variable :=
  {| v_name := name; v_dimensions := [name]; v_attrs := ∅;
     v_data := {| shape := [length values]; cells := values |} |}.

(** A data variable filled with [1, 2, 3, ...]. *)
Definition grid (name : string) (dims : list string)
    (attrs : gmap string attr_value) (extents : list nat) : variable :=
  {| v_name := name; v_dimensions := dims; v_attrs := attrs;
     v_data := {| shape := extents;
                  cells := map (fun i => inject_Z (Z.of_nat i))
                               (seq 1 (product extents)) |} |}.

(** A grid-mapping variable: attributes only. *)
Definition mapping (name : string) (attrs : gmap string attr_value) : variable :=
  {| v_name := name; v_dimensions := []; v_attrs := attrs;
     v_data := {| shape := []; cells := [0%Q] |} |}.

Definition dataset_of (vars : list variable) : dataset :=
  {| variables := list_to_map (map (fun v => (v_name v, v)) vars) |}.

(** [t(y, x)] over ascending [x] and descending [y]. *)
Definition north_up : dataset :=
  dataset_of [grid "t" ["y"; "x"] ∅ [4; 4]%nat;
              coordinate "x" [0; 1; 2; 3]%Q;
              coordinate "y" [10; 7; 4; 1]%Q].

(** The same with [y] stored ascending. *)
Definition south_up : dataset :=
  dataset_of [grid "t" ["y"; "x"] ∅ [2; 2]%nat;
              coordinate "x" [0; 1]%Q;
              coordinate "y" [0; 1]%Q].


(** GOES imagery: scan angles stored west to east, and east to west. *)
Definition goes_east : dataset :=
  dataset_of [grid "rad" ["y"; "x"] ∅ [2; 2]%nat;
              coordinate "x" [0; 1]%Q;
              coordinate "y" [1; 0]%Q;
              mapping "goes_imager_projection" ∅].

Definition goes_west : dataset :=
  dataset_of [grid "rad" ["y"; "x"] ∅ [2; 2]%nat;
              coordinate "x" [1; 0]%Q;
              coordinate "y" [1; 0]%Q;
              mapping "goes_imager_projection" ∅].

(** The variable of a dataset by name, for the examples. *)
Definition var (ds : dataset) (name : string) : variable :=
  default (mapping name ∅) (variables ds !! name).

(** [t(time, y, x)] with extents 2, 3 and 4. *)
Definition cube : dataset :=
  dataset_of [grid "t" ["time"; "y"; "x"] ∅ [2; 3; 4]%nat].

(** [t(y, x)] alone: no coordinate variable, no grid mapping. *)
Definition bare : dataset := dataset_of [grid "t" ["y"; "x"] ∅ [2; 2]%nat].


(** A [crs] variable whose grid mapping name is not one of the five. *)
Definition odd_mapping : dataset :=
  dataset_of [grid "t" ["y"; "x"] ∅ [2; 2]%nat;
              mapping "crs" {["grid_mapping_name" := AText "sinusoidal"]}].

(** Packed data: [_FillValue = 3], [scale_factor = 2], [add_offset = 1]. *)
Definition packed : dataset :=
  dataset_of [grid "t" ["y"; "x"]
                (<["_FillValue" := ANum 3]>
                   (<["scale_factor" := ANum 2]> {["add_offset" := ANum 1]}))
                [2; 2]%nat].

(** GOES imagery whose [perspective_point_height] is a text. *)
Definition text_height : dataset :=
  dataset_of [grid "rad" ["y"; "x"] ∅ [2; 2]%nat;
              coordinate "x" [0; 1]%Q;
              coordinate "y" [1; 0]%Q;
              mapping "goes_imager_projection"
                {["perspective_point_height" := AText "high"]}].

(** Two grid-mapping variables: [projection] comes before [grid_mapping]
    in the list of candidates. *)
Definition two_mappings : dataset :=
  dataset_of [grid "t" ["y"; "x"] ∅ [2; 2]%nat;
              mapping "grid_mapping" {["grid_mapping_name" := AText "latitude_longitude"]};
              mapping "projection"
                (<["grid_mapping_name" := AText "polar_stereographic"]>
                   {["false_easting" := ANum 500]})].

(** A transverse Mercator whose false easting is a text. *)
Definition text_easting : dataset :=
  dataset_of [grid "t" ["y"; "x"] ∅ [2; 2]%nat;
              mapping "transverse_mercator"
                (<["grid_mapping_name" := AText "transverse_mercator"]>
                   {["false_easting" := AText "500 m"]})].

(** [t(lat, lon)] whose [coordinates] attribute is a number. *)
Definition numeric_coordinates : dataset :=
  dataset_of [grid "t" ["lat"; "lon"] {["coordinates" := ANum 7]} [2; 2]%nat;
              coordinate "lon" [0; 1]%Q;
              coordinate "lat" [1; 0]%Q].

(** One sample on each axis, under GOES scaling. *)
Definition goes_point : dataset :=
  dataset_of [grid "rad" ["y"; "x"] ∅ [1; 1]%nat;
              coordinate "x" [2]%Q;
              coordinate "y" [3]%Q;
              mapping "goes_imager_projection" {["perspective_point_height" := ANum 10]}].

(** [t(y, x)] over an [x] without samples. *)
Definition empty_axis : dataset :=
  dataset_of [grid "t" ["y"; "x"] ∅ [2; 2]%nat;
              coordinate "x" []%Q;
              coordinate "y" [1; 0]%Q].

(** A two-dimensional latitude array, three rows of two. *)
Definition lat2d : variable :=
  {| v_name := "lat"; v_dimensions := ["y"; "x"]; v_attrs := ∅;
     v_data := {| shape := [3; 2]%nat; cells := [50; 51; 40; 41; 30; 31]%Q |} |}.

(** A world that holds the source file already. *)
Definition busy_world : world :=
  {| message_bar := [];
     files := {["/data/sst.nc" := EmptyFile]};
     layers := [] |}.

(** A GDAL that refuses the no-data value, and one whose write fails. *)
Definition refusing_host : host := {|
  float_of_text := decimal;
  float32 := fun q => q;
  getitem_mask := netcdf_mask;
  temp_tif := "/tmp/tmp0001.tif";
  gtiff_driver := true;
  create_ok := fun _ _ => true;
  band_ok := true;
  write_status := 0;
  nodata_ok := false;
  layer_valid := true;
  layer_error := ""
|}.

Definition failing_host : host := {|
  float_of_text := decimal;
  float32 := fun q => q;
  getitem_mask := netcdf_mask;
  temp_tif := "/tmp/tmp0001.tif";
  gtiff_driver := true;
  create_ok := fun _ _ => true;
  band_ok := true;
  write_status := 3;
  nodata_ok := true;
  layer_valid := true;
  layer_error := ""
|}.

(** A file with a geographic [crs] variable and a GOES projection
    variable. *)
Definition crs_and_goes : dataset :=
  dataset_of [grid "rad" ["y"; "x"] ∅ [2; 2]%nat;
              coordinate "x" [0; 1]%Q;
              coordinate "y" [1; 0]%Q;
              mapping "crs" {["grid_mapping_name" := AText "latitude_longitude"]};
              mapping "goes_imager_projection" {["perspective_point_height" := ANum 10]}].

(** [t(y, x)] whose [missing_value] is the text [n/a]. *)
Definition text_missing : dataset :=
  dataset_of [grid "t" ["y"; "x"] {["missing_value" := AText "n/a"]} [2; 2]%nat].

(** [t(y, x)] whose [scale_factor] is the text [2.5]. *)
Definition numeral_scale : dataset :=
  dataset_of [grid "t" ["y"; "x"] {["scale_factor" := AText "2.5"]} [2; 2]%nat].

(** netCDF4 returning the second cell masked. *)
Definition masking_host : host := {|
  float_of_text := decimal;
  float32 := fun q => q;
  getitem_mask := fun _ => Ok [false; true; false; false];
  temp_tif := "/tmp/tmp0001.tif";
  gtiff_driver := true;
  create_ok := fun _ _ => true;
  band_ok := true;
  write_status := 0;
  nodata_ok := true;
  layer_valid := true;
  layer_error := ""
|}.

End Example.

(** ** Vocabulary of the properties *)

(** The two tests of [classify], as predicates on a name. *)
Definition names_x (ds : dataset) (name : string) : bool :=
  match variables ds !! name with
  | Some coord_var => py_in name x_coords || axis_is coord_var "X"
  | None => false
  end.

Definition names_y (ds : dataset) (name : string) : bool :=
  match variables ds !! name with
  | Some coord_var =>
      negb (py_in name x_coords || axis_is coord_var "X")
      && (py_in name y_coords || axis_is coord_var "Y")
  | None => false
  end.

(** The last name of a list that passes a test. *)
Fixpoint last_such (p : string -> bool) (names : list string) : option string :=
  match names with
  | [] => None
  | n :: names' =>
      match last_such p names' with
      | Some m => Some m
      | None => if p n then Some n else None
      end
  end.

(** A variable and its name are set together. *)
Definition named (st : axes) : Prop :=
  (is_Some (x_var st) -> is_Some (x_name st))
  /\ (is_Some (y_var st) -> is_Some (y_name st)).

(** The message [visualize] shows for a variable of rank below two. *)
Definition rank_message (var_name : string) : message :=
  {| title := "Error";
     text := Text ("Variable " ++ var_name ++
                   " must have at least 2 dimensions for visualization");
     level := 2 |}.

(** The raster behind [path], when there is one, satisfies [P]. *)
Definition raster_at (path : string) (P : raster -> Prop) (w : world) : Prop :=
  forall r, files w !! path = Some (RasterFile r) -> P r.

(** A statement that keeps a property of the world, however it ends. *)
Definition keeps {A : Type} (I : world -> Prop) (m : M A) : Prop :=
  forall w, I w -> I (m w).2.

(** The five grid-mapping names [get_projection_info] knows. *)
Definition recognized_names : list string :=
  ["latitude_longitude"; "transverse_mercator"; "lambert_conformal_conic";
   "geostationary"; "polar_stereographic"].

Definition recognized (proj_attrs : gmap string attr_value) : bool :=
  match proj_attrs !! "grid_mapping_name" with
  | Some (AText mapping_name) => py_in mapping_name recognized_names
  | _ => false
  end.

(** The raster of a pipeline that completes. *)
Definition finished_raster (h : host) (rows cols : nat) (srs : option srs)
    (geotransform : option (list Q)) (data : masked_array) (fill_value : Q) : raster :=
  {| r_xsize := cols;
     r_ysize := rows;
     r_projection := srs ≫= ExportToWkt;
     r_geotransform := geotransform;
     r_pixels := Some (map fst (ma_cells data));
     r_nodata := if nodata_ok h then Some fill_value else None;
     r_statistics := true |}.

(** The message for a layer QGIS finds invalid. *)
Definition invalid_layer_message (h : host) : message :=
  {| title := "Error";
     text := Text ("Failed to create layer: " ++ layer_error h);
     level := 2 |}.

(** The names [get_geotransform] looks at: the words of the [coordinates]
    attribute, then the dimension names. *)
Definition candidates (var : variable) : list string :=
  match v_attrs var !! "coordinates" with
  | Some (AText s) => split s
  | _ => []
  end ++ v_dimensions var.

(** The message the handler of [visualize] shows for an exception. *)
Definition error_message (e : exn) : message :=
  {| title := "Error"; text := StrOf e; level := 2 |}.

(** A statement that shows no message and adds no layer. *)
Definition quiet {A : Type} (m : M A) : Prop :=
  forall w, message_bar (m w).2 = message_bar w /\ layers (m w).2 = layers w.

(** How the pipeline ends: an exception leaves message bar and layers as
    they were; a return has added the layer, or shown that it is invalid. *)
Definition reports (h : host) (path layer_name : string) (w : world)
    (out : result unit * world) : Prop :=
  match out.1 with
  | Raise _ => message_bar out.2 = message_bar w /\ layers out.2 = layers w
  | Ok _ =>
      if layer_valid h
      then message_bar out.2 = message_bar w
           /\ layers out.2 = (layers w ++ [(path, layer_name)])%list
      else message_bar out.2 = (message_bar w ++ [invalid_layer_message h])%list
           /\ layers out.2 = layers w
  end.

(** The raster of a pipeline stopped at the write: allocated and
    georeferenced, without pixels. *)
Definition unwritten_raster (rows cols : nat) (srs : option srs)
    (geotransform : option (list Q)) : raster :=
  {| r_xsize := cols;
     r_ysize := rows;
     r_projection := srs ≫= ExportToWkt;
     r_geotransform := geotransform;
     r_pixels := None;
     r_nodata := None;
     r_statistics := false |}.


(** * Properties *)

(** ** Fallible computations *)

Lemma bind_Ok {A B : Type} (m : result A) (f : A -> result B) (b : B) :
  m ≫= f = Ok b -> exists a, m = Ok a /\ f a = Ok b.
Proof. destruct m as [a|e]; simpl; [eauto | discriminate]. Qed.

(** Takes a chain of binds that returned apart, step by step. *)
Ltac result_inv H :=
  repeat first
    [ let a := fresh "a" in
      let Ha := fresh "Ha" in
      apply bind_Ok in H as (a & Ha & H)
    | match type of H with
      | (let '(_, _) := ?p in _) = _ => destruct p
      end ].

(** ** The coordinate resolver *)

Lemma classify_x_name ds st n :
  x_name (classify ds st n) = if names_x ds n then Some n else x_name st.
Proof.
  unfold classify, names_x. destruct (variables ds !! n) as [cv|]; [|done].
  destruct (py_in n x_coords || axis_is cv "X"); [done|].
  by destruct (py_in n y_coords || axis_is cv "Y").
Qed.

Lemma classify_y_name ds st n :
  y_name (classify ds st n) = if names_y ds n then Some n else y_name st.
Proof.
  unfold classify, names_y. destruct (variables ds !! n) as [cv|]; [|done].
  destruct (py_in n x_coords || axis_is cv "X"); [done|].
  by destruct (py_in n y_coords || axis_is cv "Y").
Qed.

(** After a loop an axis holds the last name that classified as it, or what
    it held before the loop. *)
Lemma loop_x_name ds names : forall st,
  x_name (foldl (classify ds) st names)
  = from_option Some (x_name st) (last_such (names_x ds) names).
Proof.
  induction names as [|n names IH]; intros st; simpl; [done|].
  rewrite IH, classify_x_name.
  destruct (last_such (names_x ds) names); simpl; [done|].
  by destruct (names_x ds n).
Qed.

Lemma loop_y_name ds names : forall st,
  y_name (foldl (classify ds) st names)
  = from_option Some (y_name st) (last_such (names_y ds) names).
Proof.
  induction names as [|n names IH]; intros st; simpl; [done|].
  rewrite IH, classify_y_name.
  destruct (last_such (names_y ds) names); simpl; [done|].
  by destruct (names_y ds n).
Qed.

Lemma classify_named ds st n : named st -> named (classify ds st n).
Proof.
  intros [Hx Hy]. unfold classify.
  destruct (variables ds !! n) as [cv|]; [|done].
  destruct (py_in n x_coords || axis_is cv "X"); [split; simpl; eauto|].
  destruct (py_in n y_coords || axis_is cv "Y"); [split; simpl; eauto|done].
Qed.

Lemma loop_named ds names : forall st,
  named st -> named (foldl (classify ds) st names).
Proof.
  induction names as [|n names IH]; intros st Hst; simpl; [done|].
  apply IH, classify_named, Hst.
Qed.

Lemma no_axes_named : named no_axes.
Proof. split; simpl; intros [? [=]]. Qed.

Lemma resolve_axes_named ds var st : resolve_axes ds var = Ok st -> named st.
Proof.
  unfold resolve_axes. intros H. apply bind_Ok in H as (st0 & H0 & [= <-]).
  assert (named st0) as Hst0.
  { unfold from_coordinates in H0.
    destruct (v_attrs var !! "coordinates") as [[q|s]|]; simplify_eq;
      auto using loop_named, no_axes_named. }
  unfold from_dimensions.
  destruct (is_none (x_var st0) || is_none (y_var st0)); auto using loop_named.
Qed.



(** ** The geotransform builder *)

Lemma transform_of_length ds xv yv gt :
  transform_of ds xv yv = Ok gt -> length gt = 6%nat.
Proof.
  unfold transform_of. intros H. result_inv H. by simplify_eq.
Qed.

(** What the [try] block returns when it returns. *)
Lemma get_geotransform_try_Ok ds var r :
  get_geotransform_try ds var = Ok r ->
  r = (None, None)
  \/ exists gt xn yn, r = (Some gt, Some (Some xn, Some yn)) /\ length gt = 6%nat.
Proof.
  unfold get_geotransform_try. intros H.
  apply bind_Ok in H as (st & Hst & H).
  destruct (resolve_axes_named _ _ _ Hst) as [Hx Hy].
  destruct (x_var st) as [xv|]; [|left; congruence].
  destruct (y_var st) as [yv|]; [|left; congruence].
  apply bind_Ok in H as (gt & Hgt & [= <-]).
  destruct Hx as [xn ->]; [eauto|]. destruct Hy as [yn ->]; [eauto|].
  right. exists gt, xn, yn. eauto using transform_of_length.
Qed.

(** C10: [get_geotransform] returns for every variable and dataset, and
    what it returns is either [(None, None)] or a list of six numbers with
    the names of the two coordinate variables; an exception raised inside
    the [try] block never leaves the function, it becomes [(None, None)]. *)
Theorem get_geotransform_total (ds : dataset) (var : variable) :
  (get_geotransform ds var = (None, None)
   \/ exists gt xn yn,
        get_geotransform ds var = (Some gt, Some (Some xn, Some yn))
        /\ length gt = 6%nat)
  /\ (forall e, get_geotransform_try ds var = Raise e ->
                get_geotransform ds var = (None, None)).
Proof.
  unfold get_geotransform. split.
  - destruct (get_geotransform_try ds var) as [r|e] eqn:H; [|by left].
    by apply get_geotransform_try_Ok in H.
  - by intros e ->.
Qed.

Lemma item_last_cons c0 c : item_last (c0 :: c) = Ok (default c0 (last (c0 :: c))).
Proof.
  unfold item_last. destruct (last (c0 :: c)) as [q|] eqn:H; [done|].
  by apply last_None in H.
Qed.

(** The six numbers, for two axes of two samples or more. *)
Lemma corners_two xa ya x0 x1 xs y0 y1 ys :
  corners xa ya (x0 :: x1 :: xs) (y0 :: y1 :: ys)
  = Ok [ if xa then x0 else default x0 (last (x0 :: x1 :: xs));
         if xa then Qabs (x1 - x0) else - Qabs (x1 - x0);
         0;
         if ya then default y0 (last (y0 :: y1 :: ys)) else y0;
         0;
         - (if ya then - Qabs (y1 - y0) else Qabs (y1 - y0)) ]%Q.
Proof.
  unfold corners. simpl item. rewrite !item_last_cons.
  destruct xa, ya; reflexivity.
Qed.

Lemma goes_scale_absent ds x y :
  variables ds !! "goes_imager_projection" = None -> goes_scale ds x y = Ok (x, y).
Proof. unfold goes_scale. by intros ->. Qed.

Lemma goes_scale_height ds proj_var h x y :
  variables ds !! "goes_imager_projection" = Some proj_var ->
  default (ANum default_height) (v_attrs proj_var !! "perspective_point_height")
  = ANum h ->
  goes_scale ds x y
  = Ok (map (fun v => v * h)%Q x, map (fun v => v * h)%Q y).
Proof. unfold goes_scale. by intros -> ->. Qed.

Lemma Qopp_opp_eq (q : Q) : (- - q)%Q = q.
Proof. destruct q as [n d]. unfold Qopp. simpl. by rewrite Z.opp_involutive. Qed.

(** Without GOES scaling, for two axes of two samples or more: origin-y is
    the last Y and the sixth number [+abs(y[1] - y[0])] when Y ascends;
    origin-y is the first Y and the sixth number [-abs(y[1] - y[0])]
    otherwise. *)
Lemma build_without_goes ds x0 x1 xs y0 y1 ys :
  variables ds !! "goes_imager_projection" = None ->
  let x := x0 :: x1 :: xs in
  let y := y0 :: y1 :: ys in
  exists x_min pixel_width,
    build ds x y
    = Ok [ x_min; pixel_width; 0;
           if ascending y then default y0 (last y) else y0;
           0;
           if ascending y then Qabs (y1 - y0) else - Qabs (y1 - y0) ]%Q.
Proof.
  intros Hgoes x y. unfold build. rewrite (goes_scale_absent _ _ _ Hgoes).
  simpl mbind. subst x y. rewrite corners_two. unfold ascending.
  destruct (Qgtb y1 y0); [|by eexists _, _].
  eexists _, _. by rewrite Qopp_opp_eq.
Qed.

(** C1, at [y = [0, 1]] stored ascending over [x = [0, 1]]: origin-y is the
    last element, 1, and the sixth number is +1, not negative.  Line 325
    negates [pixel_height] for an ascending Y and line 334 negates it
    again. *)
Theorem ascending_y_stores_positive_height :
  get_geotransform Example.south_up (Example.var Example.south_up "t")
  = (Some [0; 1; 0; 1; 0; 1]%Q, Some (Some "x", Some "y")).
Proof. vm_compute. reflexivity. Qed.

(** With Y stored descending the same code gives the north-up transform
    of the specification: origin-y the first element, height negative. *)
Example descending_y_stores_negative_height :
  get_geotransform Example.north_up (Example.var Example.north_up "t")
  = (Some [0; 1; 0; 10; 0; -3]%Q, Some (Some "x", Some "y")).
Proof. vm_compute. reflexivity. Qed.

(** C7, as stated, fails: scan angles stored east to west, [x = [1, 0]],
    under the default height give the pixel width -35786023, while
    [abs(x[1] - x[0])] times the height is 35786023. *)
Lemma goes_descending_x_negates_width :
  (get_geotransform Example.goes_west (Example.var Example.goes_west "rad")).1
    ≫= (fun gt => gt !! 1%nat)
  = Some (-35786023)%Q
  /\ ~ (-35786023 == Qabs (0 - 1) * default_height)%Q.
Proof. split; [vm_compute; reflexivity | vm_compute; discriminate]. Qed.

(** The first two of the six numbers, for an X axis of two samples or
    more over any Y axis that has a sample. *)
Lemma corners_x_two xa ya x0 x1 xs y0 ys :
  exists oy ph,
    corners xa ya (x0 :: x1 :: xs) (y0 :: ys)
    = Ok [ if xa then x0 else default x0 (last (x0 :: x1 :: xs));
           if xa then Qabs (x1 - x0) else - Qabs (x1 - x0);
           0; oy; 0; ph ]%Q.
Proof.
  unfold corners. simpl item. rewrite !item_last_cons.
  destruct xa, ya; simpl; eauto.
Qed.

(** C7, amended: with a [goes_imager_projection] variable whose height is a
    number [h] (the default when the attribute is absent), both coordinate
    sequences are multiplied by [h] before the corners are computed, with the
    orientation taken from the radians; for an X axis of two samples or more
    the pixel width of a transform is [abs(x[1]*h - x[0]*h)], the distance
    of the first two scaled coordinates, for an ascending X and minus that
    for a descending X, and a transform is returned whenever Y has a
    sample. *)
Theorem goes_pixel_width (ds : dataset) (proj_var : variable) (h : Q)
    (x0 x1 : Q) (xs : list Q) (y : list Q) :
  variables ds !! "goes_imager_projection" = Some proj_var ->
  default (ANum default_height) (v_attrs proj_var !! "perspective_point_height")
  = ANum h ->
  let x := x0 :: x1 :: xs in
  build ds x y
  = corners (ascending x) (ascending y)
      (map (fun v => v * h)%Q x) (map (fun v => v * h)%Q y)
  /\ (forall gt, build ds x y = Ok gt ->
        gt !! 1%nat
        = Some (if ascending x then Qabs (x1 * h - x0 * h)
                else - Qabs (x1 * h - x0 * h))%Q)
  /\ (y <> [] -> exists gt, build ds x y = Ok gt).
Proof.
  intros Hvar Hh x.
  assert (build ds x y
          = corners (ascending x) (ascending y)
              (map (fun v => v * h)%Q x) (map (fun v => v * h)%Q y)) as Hb.
  { unfold build. by rewrite (goes_scale_height _ _ _ _ _ Hvar Hh). }
  split; [exact Hb|]. rewrite Hb. subst x. cbn [map].
  destruct y as [|y0 ys]; cbn [map].
  - split; [|done]. intros gt Hgt. unfold corners in Hgt. cbn [item lookup list_lookup] in Hgt.
    cbn [mbind result_bind] in Hgt.
    destruct (negb (ascending (x0 :: x1 :: xs))); cbn [mbind result_bind] in Hgt;
      [rewrite item_last_cons in Hgt|]; discriminate.
  - destruct (corners_x_two (ascending (x0 :: x1 :: xs)) (ascending (y0 :: ys))
                (x0 * h) (x1 * h) (map (fun v => v * h)%Q xs)
                (y0 * h) (map (fun v => v * h)%Q ys)) as (oy & ph & Hc).
    rewrite Hc. split; [|eauto].
    intros gt [= <-]. cbn [lookup list_lookup]. reflexivity.
Qed.

Lemma goes_pixel_width_witness :
  (forall gt, build Example.goes_east [0; 1]%Q [3]%Q = Ok gt ->
     gt !! 1%nat = Some (Qabs (1 * default_height - 0 * default_height))%Q)
  /\ exists gt, build Example.goes_east [0; 1]%Q [3]%Q = Ok gt.
Proof.
  destruct (goes_pixel_width Example.goes_east
              (Example.mapping "goes_imager_projection" ∅) default_height
              0 1 [] [3]%Q eq_refl eq_refl) as (_ & Hw & Hr).
  split; [exact Hw | apply Hr; discriminate].
Defined.

(** ** [visualize]: the rank check *)

Lemma visualize_try_named h ds fp vn var :
  vn <> "" -> variables ds !! vn = Some var ->
  visualize_try h ds fp vn
  = if (length (shape (v_data var)) <? 2)%nat
    then pushMessage "Error" (text (rank_message vn)) 2
    else write_raster h ds fp vn var.
Proof.
  intros Hvn Hvar. unfold visualize_try.
  apply String.eqb_neq in Hvn. by rewrite Hvn, Hvar.
Qed.

(** C6: for a variable of rank below two, [visualize] shows the error
    message on the message bar and returns; the files are what they were
    before the call (no temporary file, no raster) and no layer is added. *)
Theorem rank_below_two_rejected (h : host) (ds : dataset) (fp vn : string)
    (var : variable) (w : world) :
  vn <> "" ->
  variables ds !! vn = Some var ->
  (length (shape (v_data var)) < 2)%nat ->
  visualize h ds fp vn w
  = (Ok tt,
     {| message_bar := message_bar w ++ [rank_message vn];
        files := files w;
        layers := layers w |}).
Proof.
  intros Hvn Hvar Hrank. unfold visualize, try_except.
  rewrite (visualize_try_named _ _ _ _ _ Hvn Hvar).
  apply Nat.ltb_lt in Hrank. rewrite Hrank. reflexivity.
Qed.

Lemma rank_below_two_rejected_witness :
  visualize Example.plain_host Example.north_up "/data/sst.nc" "x"
    Example.fresh_world
  = (Ok tt,
     {| message_bar := [rank_message "x"]; files := ∅; layers := [] |}).
Proof.
  apply (rank_below_two_rejected Example.plain_host Example.north_up
           "/data/sst.nc" "x" (Example.coordinate "x" [0; 1; 2; 3]%Q)
           Example.fresh_world).
  - discriminate.
  - vm_compute. reflexivity.
  - simpl. lia.
Defined.

(** ** Statements that keep a property of the world *)

Lemma keeps_ret {A : Type} I (a : A) : keeps I (mret a).
Proof. by intros w. Qed.

Lemma keeps_raise {A : Type} I e : keeps I (@raise A e).
Proof. by intros w. Qed.

Lemma keeps_bind {A B : Type} I (m : M A) (f : A -> M B) :
  keeps I m -> (forall a, keeps I (f a)) -> keeps I (m ≫= f).
Proof.
  intros Hm Hf w Hw. unfold mbind, M_bind. specialize (Hm w Hw).
  destruct (m w) as [[a|e] w']; simpl in *; [by apply Hf | done].
Qed.

Lemma keeps_lift_bind {A B : Type} I (r : result A) (f : A -> M B) :
  (forall a, r = Ok a -> keeps I (f a)) -> keeps I (lift r ≫= f).
Proof.
  intros Hf w Hw. unfold mbind, M_bind, lift.
  destruct r as [a|e]; simpl; [by apply (Hf a) | done].
Qed.

Lemma keeps_pushMessage path P title text level :
  keeps (raster_at path P) (pushMessage title text level).
Proof. by intros w. Qed.

Lemma keeps_addMapLayer path P p name : keeps (raster_at path P) (addMapLayer p name).
Proof. by intros w. Qed.

Lemma keeps_on_raster path (P : raster -> Prop) f :
  (forall r, P r -> P (f r)) -> keeps (raster_at path P) (on_raster path f).
Proof.
  intros Hf w Hw r. cbn [snd on_raster files]. rewrite lookup_alter_eq.
  destruct (files w !! path) as [[|r0]|] eqn:H0; simpl; intros [= <-].
  apply Hf, Hw, H0.
Qed.

Lemma keeps_Create h path (P : raster -> Prop) xsize ysize :
  P (new_raster xsize ysize) -> keeps (raster_at path P) (Create h path xsize ysize).
Proof.
  intros Hnew w Hw. unfold Create.
  destruct (create_ok h xsize ysize); [|done].
  intros r. cbn [snd files]. rewrite lookup_insert_eq. by intros [= <-].
Qed.

Lemma mkstemp_raster_at h P w : raster_at (temp_tif h) P (mkstemp h w).2.
Proof. intros r. cbn [snd mkstemp files]. by rewrite lookup_insert_eq. Qed.

Lemma keeps_WriteArray h path (P : raster -> Prop) xsize ysize data :
  (forall rows cols r, ma_shape data = [rows; cols] -> P r ->
     P (with_pixels (map fst (ma_cells data)) r)) ->
  keeps (raster_at path P) (WriteArray h path xsize ysize data).
Proof.
  intros Hpix. unfold WriteArray.
  destruct (ma_shape data) as [|rows [|cols [|]]] eqn:Hs; try apply keeps_raise.
  destruct ((cols <=? xsize)%nat && (rows <=? ysize)%nat); [|apply keeps_raise].
  destruct (write_status h =? 0)%Z; [|apply keeps_ret].
  apply keeps_bind; [|intros; apply keeps_ret].
  apply keeps_on_raster. eauto.
Qed.

Lemma keeps_SetNoDataValue h path (P : raster -> Prop) fill_value :
  (forall r, P r -> P (with_nodata fill_value r)) ->
  keeps (raster_at path P) (SetNoDataValue h path fill_value).
Proof.
  intros Hnd. unfold SetNoDataValue.
  destruct (nodata_ok h); [by apply keeps_on_raster | apply keeps_ret].
Qed.

(** The raster [write_raster] leaves behind its temporary path satisfies
    whatever the new raster satisfies and each step of the pipeline keeps,
    whether the pipeline completes or raises on the way. *)
Lemma write_raster_raster_at h ds fp vn var (P : raster -> Prop) :
  (forall data fill xs ys, normalize h var = Ok (data, fill) ->
     extent data 1 = Ok xs -> extent data 0 = Ok ys -> P (new_raster xs ys)) ->
  (forall srs gm r, get_projection_info ds = Ok (Some srs, gm) ->
     P r -> P (with_projection (ExportToWkt srs) r)) ->
  (forall gt names r, get_geotransform ds var = (Some gt, names) ->
     P r -> P (with_geotransform gt r)) ->
  (forall data fill rows cols r, normalize h var = Ok (data, fill) ->
     ma_shape data = [rows; cols] ->
     P r -> P (with_pixels (map fst (ma_cells data)) r)) ->
  (forall data fill r, normalize h var = Ok (data, fill) ->
     P r -> P (with_nodata fill r)) ->
  (forall r, P r -> P (with_statistics r)) ->
  forall w, raster_at (temp_tif h) P (write_raster h ds fp vn var w).2.
Proof.
  intros Hnew Hproj Hgt Hpix Hnd Hst w.
  unfold write_raster, mbind, M_bind.
  pose proof (mkstemp_raster_at h P w) as Hw.
  destruct (mkstemp h w) as [r0 w0] eqn:Hmk.
  assert (r0 = Ok (temp_tif h)) as -> by (by inversion Hmk).
  simpl in Hw. clear Hmk. revert w0 Hw.
  fold (keeps (raster_at (temp_tif h) P)
          (write_raster_to h ds fp vn var (temp_tif h))).
  unfold write_raster_to.
  apply keeps_lift_bind. intros [data fill] Hnorm.
  destruct (negb (gtiff_driver h)); [apply keeps_raise|].
  apply keeps_lift_bind. intros xs Hxs.
  apply keeps_lift_bind. intros ys Hys.
  apply keeps_bind; [apply keeps_Create; eauto|]. intros out_ds.
  destruct (negb out_ds); [apply keeps_raise|].
  apply keeps_lift_bind. intros [srs gm] Hinfo.
  apply keeps_bind.
  { destruct srs as [srs|]; [|apply keeps_ret]. apply keeps_on_raster. eauto. }
  intros _. destruct (get_geotransform ds var) as [gt names] eqn:Hg.
  apply keeps_bind.
  { destruct gt as [gt|]; [|apply keeps_ret]. apply keeps_on_raster. eauto. }
  intros _. destruct (negb (band_ok h)); [apply keeps_raise|].
  apply keeps_bind; [apply keeps_WriteArray; eauto|]. intros status.
  destruct (negb (status =? 0)%Z); [apply keeps_raise|].
  apply keeps_bind; [apply keeps_SetNoDataValue; eauto|]. intros _.
  apply keeps_bind; [apply keeps_on_raster; eauto|]. intros _.
  cbv zeta. destruct (layer_valid h);
    [apply keeps_addMapLayer | apply keeps_pushMessage].
Qed.

Lemma try_except_final {A : Type} (I : world -> Prop) (body : M A) handler w :
  I (body w).2 -> (forall e, keeps I (handler e)) -> I (try_except body handler w).2.
Proof.
  intros Hb Hh. unfold try_except.
  destruct (body w) as [[a|e] w']; simpl in *; [done | by apply Hh].
Qed.

(** The files [visualize] leaves are those its pipeline leaves: the
    handler only shows the exception and raises it again. *)
Lemma visualize_raster_at h ds fp vn var (P : raster -> Prop) w :
  vn <> "" -> variables ds !! vn = Some var ->
  (2 <= length (shape (v_data var)))%nat ->
  raster_at (temp_tif h) P (write_raster h ds fp vn var w).2 ->
  raster_at (temp_tif h) P (visualize h ds fp vn w).2.
Proof.
  intros Hvn Hvar Hrank Hw. unfold visualize.
  apply try_except_final.
  - rewrite (visualize_try_named _ _ _ _ _ Hvn Hvar).
    destruct (Nat.ltb_spec (length (shape (v_data var))) 2); [lia | done].
  - intros e. apply keeps_bind; [apply keeps_pushMessage | intros; apply keeps_raise].
Qed.

(** ** When a statement completes *)

Lemma M_bind_Ok {A B : Type} (m : M A) (f : A -> M B) w b w' :
  (m ≫= f) w = (Ok b, w') -> exists a w1, m w = (Ok a, w1) /\ f a w1 = (Ok b, w').
Proof.
  unfold mbind, M_bind. destruct (m w) as [[a|e] w1]; [eauto | discriminate].
Qed.

Lemma lift_Ok {A : Type} (r : result A) w a w' :
  lift r w = (Ok a, w') -> r = Ok a /\ w' = w.
Proof. unfold lift. by intros [= -> ->]. Qed.

Lemma raise_not_Ok {A : Type} e w (a : A) w' : raise e w = (Ok a, w') -> False.
Proof. discriminate. Qed.

Lemma WriteArray_Ok h path xsize ysize data w status w' :
  WriteArray h path xsize ysize data w = (Ok status, w') ->
  exists rows cols, ma_shape data = [rows; cols].
Proof.
  unfold WriteArray.
  destruct (ma_shape data) as [|rows [|cols [|]]]; try discriminate. eauto.
Qed.

(** A pipeline that completes has normalised the data and written a
    two-dimensional array. *)
Lemma write_raster_to_Ok h ds fp vn var path w w' :
  write_raster_to h ds fp vn var path w = (Ok tt, w') ->
  exists data fill rows cols,
    normalize h var = Ok (data, fill) /\ ma_shape data = [rows; cols].
Proof.
  unfold write_raster_to. intros H.
  apply M_bind_Ok in H as ([data fill] & w1 & Hn & H).
  apply lift_Ok in Hn as [Hn ->].
  destruct (negb (gtiff_driver h)); [by apply raise_not_Ok in H|].
  apply M_bind_Ok in H as (xs & w2 & _ & H).
  apply M_bind_Ok in H as (ys & w3 & _ & H).
  apply M_bind_Ok in H as (out_ds & w4 & _ & H).
  destruct (negb out_ds); [by apply raise_not_Ok in H|].
  apply M_bind_Ok in H as ([srs gm] & w5 & _ & H).
  apply M_bind_Ok in H as (? & w6 & _ & H).
  destruct (get_geotransform ds var) as [gt names].
  apply M_bind_Ok in H as (? & w7 & _ & H).
  destruct (negb (band_ok h)); [by apply raise_not_Ok in H|].
  apply M_bind_Ok in H as (status & w8 & Hwrite & H).
  apply WriteArray_Ok in Hwrite as (rows & cols & Hs). eauto 10.
Qed.

Lemma visualize_Ok h ds fp vn var w w' :
  vn <> "" -> variables ds !! vn = Some var ->
  (2 <= length (shape (v_data var)))%nat ->
  visualize h ds fp vn w = (Ok tt, w') ->
  exists data fill rows cols,
    normalize h var = Ok (data, fill) /\ ma_shape data = [rows; cols].
Proof.
  intros Hvn Hvar Hrank. unfold visualize, try_except.
  rewrite (visualize_try_named _ _ _ _ _ Hvn Hvar).
  destruct (Nat.ltb_spec (length (shape (v_data var))) 2); [lia|].
  destruct (write_raster h ds fp vn var w) as [[[]|e] w1] eqn:Hrun;
    [|discriminate].
  intros _. unfold write_raster in Hrun.
  apply M_bind_Ok in Hrun as (p & w0 & _ & Hrun).
  eapply write_raster_to_Ok, Hrun.
Qed.

(** ** The normaliser *)

Lemma normalize_Ok h var data fill' :
  normalize h var = Ok (data, fill') ->
  exists mask fill scale offset,
    getitem_mask h var = Ok mask
    /\ read_fill_value h var = Ok fill
    /\ py_float h (default (ANum 1) (v_attrs var !! "scale_factor")) = Ok scale
    /\ py_float h (default (ANum 0) (v_attrs var !! "add_offset")) = Ok offset
    /\ fill' = (fill * scale + offset)%Q
    /\ data = ma_add (ma_mul (masked_equal
                                (astype_float32 h (under_mask (v_data var) mask))
                                fill) scale) offset.
Proof.
  unfold normalize. intros H.
  apply bind_Ok in H as (raw & Hraw & H).
  apply bind_Ok in H as (fill & Hf & H).
  apply bind_Ok in H as (scale & Hs & H).
  apply bind_Ok in H as (offset & Ho & H).
  injection H as <- <-. unfold getitem in Hraw.
  apply bind_Ok in Hraw as (mask & Hm & [= <-]). eauto 12.
Qed.

Lemma normalize_shape h var data fill :
  normalize h var = Ok (data, fill) -> ma_shape data = shape (v_data var).
Proof.
  intros H. apply normalize_Ok in H as (m & f & s & o & _ & _ & _ & _ & _ & ->).
  reflexivity.
Qed.

(** ** The extents of the raster *)

(** C2, at [t(time, y, x)] with extents 2, 3 and 4: the variable passes
    the rank check, no slice over the leading dimension is taken, the
    raster is allocated 3 wide and 2 high (the last two extents are 3 and
    4), the three-dimensional array is refused by [WriteArray], and
    [visualize] raises with no pixel written. *)
Theorem rank_three_uses_leading_extents :
  (visualize Example.plain_host Example.cube "/data/c.nc" "t" Example.fresh_world).1
  = Raise ValueError
  /\ files (visualize Example.plain_host Example.cube "/data/c.nc" "t"
              Example.fresh_world).2 !! "/tmp/tmp0001.tif"
     = Some (RasterFile (new_raster 3 2)).
Proof. split; vm_compute; reflexivity. Qed.

(** For a rank above two nothing is written: [WriteArray] refuses the
    array and [visualize] raises, with the raster allocated but empty. *)
Lemma rank_above_two_raises h ds fp vn var rows cols rest w :
  vn <> "" ->
  variables ds !! vn = Some var ->
  shape (v_data var) = rows :: cols :: rest ->
  rest <> [] ->
  (exists e, (visualize h ds fp vn w).1 = Raise e)
  /\ raster_at (temp_tif h) (fun r => r_pixels r = None) (visualize h ds fp vn w).2.
Proof.
  intros Hvn Hvar Hshape Hrest.
  assert (2 <= length (shape (v_data var)))%nat as Hrank
    by (rewrite Hshape; simpl; lia).
  split.
  - destruct (visualize h ds fp vn w) as [[[]|e] w'] eqn:Hrun; [|by eexists].
    apply (visualize_Ok _ _ _ _ _ _ _ Hvn Hvar Hrank) in Hrun
      as (data & fill & rows' & cols' & Hn & Hs).
    apply normalize_shape in Hn. rewrite Hn, Hshape in Hs. by simplify_eq.
  - apply (visualize_raster_at _ _ _ _ _ _ _ Hvn Hvar Hrank).
    apply write_raster_raster_at; try done.
    intros data fill rows' cols' r Hn Hs _.
    apply normalize_shape in Hn. rewrite Hn, Hshape in Hs. by simplify_eq.
Qed.

(** A run on a two-dimensional variable: four by four, georeferenced,
    written. *)
Example north_up_run :
  files (visualize Example.plain_host Example.north_up "/data/sst.nc" "t"
           Example.fresh_world).2 !! "/tmp/tmp0001.tif"
  = Some (RasterFile
            {| r_xsize := 4; r_ysize := 4; r_projection := None;
               r_geotransform := Some [0; 1; 0; 10; 0; -3]%Q;
               r_pixels := Some (map (fun i => inject_Z (Z.of_nat i)) (seq 1 16));
               r_nodata := Some (-9999)%Q; r_statistics := true |}).
Proof. vm_compute. reflexivity. Qed.

(** ** A pipeline that completes *)

(** With the data normalised, the projection classified and the backing
    store answering, [visualize] completes, whether or not a geotransform
    was found, and leaves the finished raster behind the temporary path. *)
Lemma visualize_completes h ds fp vn var rows cols data fill srs gm gt names w :
  vn <> "" ->
  variables ds !! vn = Some var ->
  shape (v_data var) = [rows; cols] ->
  normalize h var = Ok (data, fill) ->
  get_projection_info ds = Ok (srs, gm) ->
  get_geotransform ds var = (gt, names) ->
  gtiff_driver h = true ->
  create_ok h cols rows = true ->
  band_ok h = true ->
  write_status h = 0%Z ->
  visualize h ds fp vn w
  = (Ok tt,
     {| message_bar :=
          message_bar w ++ (if layer_valid h then [] else [invalid_layer_message h]);
        files :=
          <[temp_tif h := RasterFile (finished_raster h rows cols srs gt data fill)]>
            (files w);
        layers :=
          layers w ++ (if layer_valid h
                       then [(temp_tif h, vn ++ " from " ++ basename fp)]
                       else []) |}).
Proof.
  intros Hvn Hvar Hshape Hn Hinfo Hg Hdrv Hcreate Hband Hstatus.
  pose proof (normalize_shape _ _ _ _ Hn) as Hs. rewrite Hshape in Hs.
  unfold visualize, try_except.
  rewrite (visualize_try_named _ _ _ _ _ Hvn Hvar), Hshape.
  cbn [length Nat.ltb Nat.leb].
  unfold write_raster, write_raster_to, mbind, M_bind, mkstemp, lift, extent,
    Create, SetProjection, SetGeoTransform, WriteArray, SetNoDataValue,
    ComputeStatistics, on_raster, addMapLayer, pushMessage, mret, M_ret, mbind, M_bind.
  rewrite Hn, Hdrv, Hs, Hinfo, Hg, Hband, Hstatus. cbn [negb lookup list_lookup].
  rewrite Hcreate. cbn [negb].
  rewrite !Nat.leb_refl. cbn [andb Z.eqb negb].
  destruct srs as [srs|], gt as [gt|], (nodata_ok h) eqn:Hnd, (layer_valid h) eqn:Hlv;
    cbn [message_bar files layers];
    rewrite ?alter_insert_eq, ?insert_insert_eq, ?app_nil_r;
    unfold finished_raster; rewrite ?Hnd; reflexivity.
Qed.

(** C9: when no coordinate pair is resolved ([get_geotransform] returns
    no transform) and the other stages succeed (a two-dimensional variable
    that normalises, a classification that returns, a backing store that
    answers), [visualize] completes and leaves the whole raster: extents,
    projection if classified, pixels, no-data value and statistics, with no
    geotransform set. *)
Theorem no_coordinates_still_writes (h : host) (ds : dataset) (fp vn : string)
    (var : variable) (rows cols : nat) (data : masked_array) (fill : Q)
    (srs : option srs) (gm : option string) (w : world) :
  vn <> "" ->
  variables ds !! vn = Some var ->
  shape (v_data var) = [rows; cols] ->
  normalize h var = Ok (data, fill) ->
  get_projection_info ds = Ok (srs, gm) ->
  (get_geotransform ds var).1 = None ->
  gtiff_driver h = true ->
  create_ok h cols rows = true ->
  band_ok h = true ->
  write_status h = 0%Z ->
  (visualize h ds fp vn w).1 = Ok tt
  /\ files (visualize h ds fp vn w).2 !! temp_tif h
     = Some (RasterFile (finished_raster h rows cols srs None data fill))
  /\ r_geotransform (finished_raster h rows cols srs None data fill) = None.
Proof.
  intros Hvn Hvar Hshape Hn Hinfo Hg Hdrv Hcreate Hband Hstatus.
  destruct (get_geotransform ds var) as [gt names] eqn:Hgt.
  simpl in Hg. subst gt.
  rewrite (visualize_completes _ _ _ _ _ _ _ _ _ _ _ _ _ w
             Hvn Hvar Hshape Hn Hinfo Hgt Hdrv Hcreate Hband Hstatus).
  cbn [fst snd files]. rewrite lookup_insert_eq. done.
Qed.

Lemma no_coordinates_still_writes_witness :
  (visualize Example.plain_host Example.bare "/data/b.nc" "t" Example.fresh_world).1
  = Ok tt
  /\ files (visualize Example.plain_host Example.bare "/data/b.nc" "t"
              Example.fresh_world).2 !! "/tmp/tmp0001.tif"
     = Some (RasterFile
               {| r_xsize := 2; r_ysize := 2; r_projection := None;
                  r_geotransform := None; r_pixels := Some [1; 2; 3; 4]%Q;
                  r_nodata := Some (-9999)%Q; r_statistics := true |}).
Proof.
  pose proof (no_coordinates_still_writes Example.plain_host Example.bare
                "/data/b.nc" "t" (Example.var Example.bare "t") 2 2
                {| ma_shape := [2; 2]%nat;
                   ma_cells := [(1, false); (2, false); (3, false); (4, false)]%Q |}
                (-9999)%Q None None Example.fresh_world) as H.
  destruct H as (H1 & H2 & _);
    [discriminate | vm_compute; reflexivity | reflexivity
    | vm_compute; reflexivity | vm_compute; reflexivity
    | vm_compute; reflexivity | reflexivity | reflexivity | reflexivity
    | reflexivity |].
  split; [exact H1 | exact H2].
Defined.

(** ** The projection *)

Lemma build_srs_unrecognized proj_attrs :
  recognized proj_attrs = false -> build_srs proj_attrs = Ok SrsEmpty.
Proof.
  unfold recognized, build_srs.
  destruct (proj_attrs !! "grid_mapping_name") as [[q|name]|]; [done | | done].
  unfold py_in, recognized_names. cbn [existsb]. intros H.
  repeat (apply orb_false_elim in H as [-> H]). reflexivity.
Qed.

(** C4: with a grid-mapping variable whose [grid_mapping_name] is absent or
    none of the five names, [get_projection_info] returns (it does not
    raise) an empty spatial reference, and the raster [visualize] leaves
    has no projection: the text set on it is the empty one, as on a new
    raster. *)
Theorem unknown_mapping_sets_no_projection (h : host) (ds : dataset)
    (fp vn : string) (var proj_var : variable) (w : world) :
  find_proj_var ds proj_vars = Some proj_var ->
  recognized (v_attrs proj_var) = false ->
  vn <> "" ->
  variables ds !! vn = Some var ->
  (2 <= length (shape (v_data var)))%nat ->
  get_projection_info ds = Ok (Some SrsEmpty, Some (v_name proj_var))
  /\ raster_at (temp_tif h) (fun r => r_projection r = None)
       (visualize h ds fp vn w).2.
Proof.
  intros Hfind Hrec Hvn Hvar Hrank.
  assert (get_projection_info ds = Ok (Some SrsEmpty, Some (v_name proj_var)))
    as Hinfo.
  { unfold get_projection_info. rewrite Hfind.
    by rewrite (build_srs_unrecognized _ Hrec). }
  split; [exact Hinfo|].
  apply (visualize_raster_at _ _ _ _ _ _ _ Hvn Hvar Hrank).
  apply write_raster_raster_at; try done.
  intros srs gm r Hinfo' _. rewrite Hinfo in Hinfo'. by simplify_eq.
Qed.

Lemma unknown_mapping_sets_no_projection_witness :
  get_projection_info Example.odd_mapping = Ok (Some SrsEmpty, Some "crs")
  /\ raster_at "/tmp/tmp0001.tif" (fun r => r_projection r = None)
       (visualize Example.plain_host Example.odd_mapping "/data/o.nc" "t"
          Example.fresh_world).2.
Proof.
  apply (unknown_mapping_sets_no_projection Example.plain_host
           Example.odd_mapping "/data/o.nc" "t"
           (Example.var Example.odd_mapping "t")
           (Example.var Example.odd_mapping "crs") Example.fresh_world).
  - vm_compute. reflexivity.
  - vm_compute. reflexivity.
  - discriminate.
  - vm_compute. reflexivity.
  - vm_compute. lia.
Defined.

(** The raster of that run, in full. *)
Example unknown_mapping_run :
  files (visualize Example.plain_host Example.odd_mapping "/data/o.nc" "t"
           Example.fresh_world).2 !! "/tmp/tmp0001.tif"
  = Some (RasterFile
            {| r_xsize := 2; r_ysize := 2; r_projection := None;
               r_geotransform := None; r_pixels := Some [1; 2; 3; 4]%Q;
               r_nodata := Some (-9999)%Q; r_statistics := true |}).
Proof. vm_compute. reflexivity. Qed.

(** ** What a pipeline that completes has gone through *)

Lemma Create_Ok_true h path xsize ysize w w' :
  Create h path xsize ysize w = (Ok true, w') -> create_ok h xsize ysize = true.
Proof. unfold Create. by destruct (create_ok h xsize ysize). Qed.

Lemma WriteArray_Ok_zero h path xsize ysize data w w' :
  WriteArray h path xsize ysize data w = (Ok 0%Z, w') ->
  write_status h = 0%Z /\ exists rows cols, ma_shape data = [rows; cols].
Proof.
  unfold WriteArray.
  destruct (ma_shape data) as [|rows [|cols [|]]]; try discriminate.
  destruct ((cols <=? xsize)%nat && (rows <=? ysize)%nat); [|discriminate].
  destruct (write_status h =? 0)%Z eqn:Hz.
  - intros _. apply Z.eqb_eq in Hz. eauto.
  - unfold mret, M_ret. intros [= Hst _]. rewrite Hst in Hz. discriminate.
Qed.

(** Everything a pipeline that completes has gone through. *)
Lemma write_raster_to_Ok_inv h ds fp vn var path w w' :
  write_raster_to h ds fp vn var path w = (Ok tt, w') ->
  exists rows cols data fill srs gm,
    normalize h var = Ok (data, fill)
    /\ ma_shape data = [rows; cols]
    /\ gtiff_driver h = true
    /\ create_ok h cols rows = true
    /\ get_projection_info ds = Ok (srs, gm)
    /\ band_ok h = true
    /\ write_status h = 0%Z.
Proof.
  unfold write_raster_to. intros H.
  apply M_bind_Ok in H as ([data fill] & w1 & Hn & H).
  apply lift_Ok in Hn as [Hn ->].
  destruct (gtiff_driver h) eqn:Hdrv; [|by apply raise_not_Ok in H].
  cbn [negb] in H.
  apply M_bind_Ok in H as (xs & w2 & Hxs & H). apply lift_Ok in Hxs as [Hxs ->].
  apply M_bind_Ok in H as (ys & w3 & Hys & H). apply lift_Ok in Hys as [Hys ->].
  apply M_bind_Ok in H as (out_ds & w4 & Hcreate & H).
  destruct out_ds; [|by apply raise_not_Ok in H]. cbn [negb] in H.
  apply Create_Ok_true in Hcreate.
  apply M_bind_Ok in H as ([srs gm] & w5 & Hinfo & H).
  apply lift_Ok in Hinfo as [Hinfo ->].
  apply M_bind_Ok in H as (? & w6 & _ & H).
  destruct (get_geotransform ds var) as [gt names].
  apply M_bind_Ok in H as (? & w7 & _ & H).
  destruct (band_ok h) eqn:Hband; [|by apply raise_not_Ok in H].
  cbn [negb] in H.
  apply M_bind_Ok in H as (status & w8 & Hwrite & H).
  destruct (status =? 0)%Z eqn:Hz; [|by apply raise_not_Ok in H].
  apply Z.eqb_eq in Hz. subst status.
  apply WriteArray_Ok_zero in Hwrite as (Hstatus & rows & cols & Hs).
  unfold extent in Hxs, Hys. rewrite Hs in Hxs, Hys. simpl in Hxs, Hys.
  simplify_eq. eauto 15.
Qed.

(** The world a [visualize] that completes leaves behind. *)
Lemma visualize_Ok_world h ds fp vn var w :
  vn <> "" ->
  variables ds !! vn = Some var ->
  (2 <= length (shape (v_data var)))%nat ->
  (visualize h ds fp vn w).1 = Ok tt ->
  exists rows cols data fill srs gm,
    shape (v_data var) = [rows; cols]
    /\ normalize h var = Ok (data, fill)
    /\ gtiff_driver h = true
    /\ create_ok h cols rows = true
    /\ get_projection_info ds = Ok (srs, gm)
    /\ band_ok h = true
    /\ write_status h = 0%Z
    /\ files (visualize h ds fp vn w).2 !! temp_tif h
       = Some (RasterFile (finished_raster h rows cols srs
                             (get_geotransform ds var).1 data fill)).
Proof.
  intros Hvn Hvar Hrank Hdone.
  assert (exists rows cols data fill srs gm,
            shape (v_data var) = [rows; cols]
            /\ normalize h var = Ok (data, fill)
            /\ gtiff_driver h = true
            /\ create_ok h cols rows = true
            /\ get_projection_info ds = Ok (srs, gm)
            /\ band_ok h = true
            /\ write_status h = 0%Z)
    as (rows & cols & data & fill & srs & gm
        & Hshape & Hn & Hdrv & Hcreate & Hinfo & Hband & Hstatus).
  { revert Hdone. unfold visualize, try_except.
    rewrite (visualize_try_named _ _ _ _ _ Hvn Hvar).
    destruct (Nat.ltb_spec (length (shape (v_data var))) 2); [lia|].
    destruct (write_raster h ds fp vn var w) as [[[]|e] w1] eqn:Hrun;
      [|discriminate].
    intros _. unfold write_raster in Hrun.
    apply M_bind_Ok in Hrun as (p & w0 & _ & Hrun).
    apply write_raster_to_Ok_inv in Hrun
      as (rows & cols & data & fill & srs & gm & Hn & Hs & ?).
    exists rows, cols, data, fill, srs, gm.
    split; [|by split].
    by rewrite <- (normalize_shape _ _ _ _ Hn). }
  exists rows, cols, data, fill, srs, gm.
  do 7 (split; [done|]).
  destruct (get_geotransform ds var) as [gt names] eqn:Hgt.
  rewrite (visualize_completes _ _ _ _ _ _ _ _ _ _ _ _ _ w
             Hvn Hvar Hshape Hn Hinfo Hgt Hdrv Hcreate Hband Hstatus).
  cbn [snd files fst]. by rewrite lookup_insert_eq.
Qed.

(** ** The no-data value and the scaling *)

Lemma lookup_map {A B : Type} (f : A -> B) (l : list A) (i : nat) :
  map f l !! i = f <$> l !! i.
Proof. exact (list_lookup_fmap f l i). Qed.

(** The cell written for a raw value: kept as stored when netCDF4 has
    masked it or it equals the fill value, scaled and shifted otherwise. *)
Lemma normalized_cell h a mask fill scale offset i raw :
  cells a !! i = Some raw ->
  map fst (ma_cells (ma_add (ma_mul (masked_equal
                                       (astype_float32 h (under_mask a mask))
                                       fill) scale) offset)) !! i
  = Some (if default false (mask !! i) || Qeq_bool (float32 h raw) fill
          then float32 h raw
          else (float32 h raw * scale + offset)%Q).
Proof.
  intros Hi. unfold ma_add, ma_mul, masked_equal, astype_float32, under_mask.
  cbn [ma_cells ma_shape].
  rewrite !lookup_map, list_lookup_imap, Hi.
  cbn [fmap option_fmap option_map fst snd].
  by destruct (default false (mask !! i) || Qeq_bool (float32 h raw) fill).
Qed.

Lemma normalized_length h a mask fill scale offset :
  length (map fst (ma_cells (ma_add (ma_mul (masked_equal
                                               (astype_float32 h (under_mask a mask))
                                               fill) scale) offset)))
  = length (cells a).
Proof.
  unfold ma_add, ma_mul, masked_equal, astype_float32, under_mask.
  cbn [ma_cells ma_shape]. by rewrite !length_map, length_imap.
Qed.

(** C8: when [var[:]] returns the data, with the mask netCDF4 gives them,
    and the attributes convert, the no-data value that goes with the
    normalised grid is [fill * scale_factor + add_offset], and no other
    value is ever set on the band.  A written cell that netCDF4 has not
    masked and whose raw value, cast to single precision, differs from the
    fill value is that value times the factor plus the offset; a cell that
    is masked or equals the fill value is written as it is stored; so with
    the factor 1 and the offset 0 every written cell is the raw value cast
    to single precision.  When [visualize] completes, the band holds one
    cell for each cell of the data and, unless GDAL refuses it, that
    no-data value. *)
Theorem nodata_follows_scaling (h : host) (ds : dataset) (fp vn : string)
    (var : variable) (mask : list bool) (fill scale offset : Q) (w : world) :
  vn <> "" ->
  variables ds !! vn = Some var ->
  (2 <= length (shape (v_data var)))%nat ->
  getitem_mask h var = Ok mask ->
  read_fill_value h var = Ok fill ->
  py_float h (default (ANum 1) (v_attrs var !! "scale_factor")) = Ok scale ->
  py_float h (default (ANum 0) (v_attrs var !! "add_offset")) = Ok offset ->
  (exists data, normalize h var = Ok (data, (fill * scale + offset)%Q))
  /\ raster_at (temp_tif h)
       (fun r =>
          (forall v, r_nodata r = Some v -> v = (fill * scale + offset)%Q)
          /\ (forall px i raw,
                r_pixels r = Some px ->
                cells (v_data var) !! i = Some raw ->
                (default false (mask !! i) = false ->
                 Qeq_bool (float32 h raw) fill = false ->
                 px !! i = Some (float32 h raw * scale + offset)%Q)
                /\ (default false (mask !! i) = true
                    \/ Qeq_bool (float32 h raw) fill = true ->
                    px !! i = Some (float32 h raw))
                /\ ((scale == 1)%Q -> (offset == 0)%Q ->
                    exists out, px !! i = Some out /\ (out == float32 h raw)%Q)))
       (visualize h ds fp vn w).2
  /\ ((visualize h ds fp vn w).1 = Ok tt ->
      exists r px,
        files (visualize h ds fp vn w).2 !! temp_tif h = Some (RasterFile r)
        /\ r_nodata r
           = (if nodata_ok h then Some (fill * scale + offset)%Q else None)
        /\ r_pixels r = Some px
        /\ length px = length (cells (v_data var))).
Proof.
  intros Hvn Hvar Hrank Hmask Hfill Hscale Hoffset.
  assert (normalize h var
          = Ok (ma_add (ma_mul (masked_equal
                                  (astype_float32 h (under_mask (v_data var) mask))
                                  fill) scale) offset,
                (fill * scale + offset)%Q)) as Hn.
  { unfold normalize, getitem. rewrite Hmask. cbn [mbind result_bind].
    by rewrite Hfill, Hscale, Hoffset. }
  split; [eauto|]. split.
  - apply (visualize_raster_at _ _ _ _ _ _ _ Hvn Hvar Hrank).
    apply write_raster_raster_at.
    + intros; split; [discriminate | discriminate].
    + intros srs gm r _ Hr. exact Hr.
    + intros gt names r _ Hr. exact Hr.
    + intros data fill' rows cols r Hn' _ [Hnd _]. rewrite Hn in Hn'.
      injection Hn' as <- <-. split; [exact Hnd|].
      intros px i raw Hpx Hi. cbn [with_pixels r_pixels] in Hpx.
      apply (inj Some) in Hpx. subst px.
      rewrite (normalized_cell _ _ _ _ _ _ _ _ Hi).
      split; [by intros -> ->|].
      split; [by intros [-> | ->]; rewrite ?orb_true_r|].
      intros Hs Ho.
      destruct (default false (mask !! i) || Qeq_bool (float32 h raw) fill);
        eexists; (split; [reflexivity|]); [reflexivity|].
      rewrite Hs, Ho. ring.
    + intros data fill' r Hn' [_ Hpx]. rewrite Hn in Hn'.
      injection Hn' as <- <-. split; [|exact Hpx].
      by intros v [= <-].
    + intros r Hr. exact Hr.
  - intros Hdone.
    destruct (visualize_Ok_world _ _ _ _ _ _ Hvn Hvar Hrank Hdone)
      as (rows & cols & data & fill' & srs & gm & _ & Hn' & _ & _ & _ & _ & _ & Hfile).
    rewrite Hn in Hn'. injection Hn' as <- <-.
    eexists _, _. split; [exact Hfile|].
    cbn [finished_raster r_nodata r_pixels].
    split; [reflexivity|]. split; [reflexivity|].
    apply normalized_length.
Qed.

Lemma nodata_follows_scaling_witness :
  exists r px,
    files (visualize Example.masking_host Example.packed "/data/p.nc" "t"
             Example.fresh_world).2 !! "/tmp/tmp0001.tif"
    = Some (RasterFile r)
    /\ r_nodata r = Some (3 * 2 + 1)%Q
    /\ r_pixels r = Some px
    /\ length px = 4%nat.
Proof.
  refine (proj2 (proj2 (nodata_follows_scaling Example.masking_host Example.packed
                          "/data/p.nc" "t" (Example.var Example.packed "t")
                          [false; true; false; false] 3 2 1 Example.fresh_world
                          _ _ _ _ _ _ _)) _).
  - discriminate.
  - vm_compute. reflexivity.
  - vm_compute. lia.
  - reflexivity.
  - vm_compute. reflexivity.
  - vm_compute. reflexivity.
  - vm_compute. reflexivity.
  - vm_compute. reflexivity.
Defined.

(** The run behind it: the fill value is 3, the factor 2 and the offset 1;
    the first and the last cell are scaled, the second, which netCDF4
    masked, and the third, which holds the fill value, are written as
    stored, and the no-data value is 7. *)
Example masked_cell_written_as_stored :
  files (visualize Example.masking_host Example.packed "/data/p.nc" "t"
           Example.fresh_world).2 !! "/tmp/tmp0001.tif"
  = Some (RasterFile
            {| r_xsize := 2; r_ysize := 2; r_projection := None;
               r_geotransform := None; r_pixels := Some [3; 2; 3; 9]%Q;
               r_nodata := Some 7%Q; r_statistics := true |}).
Proof. vm_compute. reflexivity. Qed.

(** ** Attributes of an unexpected type *)









(** With [missing_value] the text [n/a], netCDF4 returns the data and
    [float()] raises [ValueError]. *)
Example text_missing_value_aborts :
  visualize Example.plain_host Example.text_missing "/data/m.nc" "t"
    Example.fresh_world
  = (Raise ValueError,
     {| message_bar := [{| title := "Error"; text := StrOf ValueError; level := 2 |}];
        files := {["/tmp/tmp0001.tif" := EmptyFile]};
        layers := [] |}).
Proof. vm_compute. reflexivity. Qed.



(** * Further properties of the code *)

(** ** The projection variable *)

Lemma find_proj_var_app ds pre name post v :
  (forall m, m ∈ pre -> variables ds !! m = None) ->
  variables ds !! name = Some v ->
  find_proj_var ds (pre ++ name :: post)%list = Some v.
Proof.
  induction pre as [|m pre IH]; intros Hpre Hname; simpl.
  - by rewrite Hname.
  - rewrite (Hpre m) by apply list_elem_of_here.
    apply IH; [|done]. intros m' Hm'. apply Hpre. by apply list_elem_of_further.
Qed.

Lemma find_proj_var_None ds names :
  find_proj_var ds names = None <-> forall m, m ∈ names -> variables ds !! m = None.
Proof.
  induction names as [|n names IH]; simpl.
  - split; [|done]. intros _ m Hm. by apply elem_of_nil in Hm.
  - destruct (variables ds !! n) as [v|] eqn:Hn.
    + split; [done|]. intros H. specialize (H n (list_elem_of_here _ _)). congruence.
    + rewrite IH. split.
      * intros H m Hm. apply elem_of_cons in Hm as [-> | Hm]; auto.
      * intros H m Hm. apply H. by apply list_elem_of_further.
Qed.

(** X1: the candidate names are tried in list order and the first one that
    is a variable of the dataset is classified, whatever variables the
    later names denote. *)
Theorem first_candidate_wins (ds : dataset) (pre post : list string)
    (name : string) (v : variable) :
  proj_vars = (pre ++ name :: post)%list ->
  (forall m, m ∈ pre -> variables ds !! m = None) ->
  variables ds !! name = Some v ->
  get_projection_info ds
  = (srs ← build_srs (v_attrs v); Ok (Some srs, Some (v_name v))).
Proof.
  intros Hsplit Hpre Hname. unfold get_projection_info.
  by rewrite Hsplit, (find_proj_var_app _ _ _ _ _ Hpre Hname).
Qed.

Lemma first_candidate_wins_witness :
  get_projection_info Example.two_mappings
  = Ok (Some (SrsPS 90 0 1 500 0), Some "projection").
Proof.
  apply (first_candidate_wins Example.two_mappings
           ["crs"; "transverse_mercator"]
           ["lambert_conformal_conic"; "goes_imager_projection";
            "polar_stereographic"; "grid_mapping"]
           "projection" (Example.var Example.two_mappings "projection")).
  - reflexivity.
  - intros m Hm. apply elem_of_cons in Hm as [-> | Hm];
      [vm_compute; reflexivity|].
    apply elem_of_cons in Hm as [-> | Hm]; [vm_compute; reflexivity|].
    by apply elem_of_nil in Hm.
  - vm_compute. reflexivity.
Defined.

(** X2: [get_projection_info] returns [(None, None)] exactly when none of
    the seven candidate names is a variable of the dataset. *)
Theorem no_candidate_no_projection (ds : dataset) :
  get_projection_info ds = Ok (None, None)
  <-> forall m, m ∈ proj_vars -> variables ds !! m = None.
Proof.
  rewrite <- find_proj_var_None. unfold get_projection_info.
  destruct (find_proj_var ds proj_vars) as [v|]; [|done].
  split; [|done]. by destruct (build_srs (v_attrs v)).
Qed.

(** X4: an exception of [get_projection_info] aborts [visualize] after the
    raster was allocated: the exception is shown and raised again, the
    temporary file holds a raster of the right size with nothing set and no
    pixel written, and no layer is added. *)
Theorem classification_error_leaves_empty_raster (h : host) (ds : dataset)
    (fp vn : string) (var : variable) (rows cols : nat) (data : masked_array)
    (fill : Q) (e : exn) (w : world) :
  vn <> "" ->
  variables ds !! vn = Some var ->
  shape (v_data var) = [rows; cols] ->
  normalize h var = Ok (data, fill) ->
  gtiff_driver h = true ->
  create_ok h cols rows = true ->
  get_projection_info ds = Raise e ->
  visualize h ds fp vn w
  = (Raise e,
     {| message_bar :=
          message_bar w ++ [{| title := "Error"; text := StrOf e; level := 2 |}];
        files := <[temp_tif h := RasterFile (new_raster cols rows)]> (files w);
        layers := layers w |}).
Proof.
  intros Hvn Hvar Hshape Hn Hdrv Hcreate Hinfo.
  pose proof (normalize_shape _ _ _ _ Hn) as Hs. rewrite Hshape in Hs.
  unfold visualize, try_except.
  rewrite (visualize_try_named _ _ _ _ _ Hvn Hvar), Hshape.
  cbn [length Nat.ltb Nat.leb].
  unfold write_raster, write_raster_to, mbind, M_bind, mkstemp, lift, extent,
    Create, pushMessage, raise.
  rewrite Hn, Hdrv, Hs, Hinfo. cbn [negb lookup list_lookup].
  rewrite Hcreate. cbn [negb message_bar files layers].
  by rewrite insert_insert_eq.
Qed.

Lemma classification_error_leaves_empty_raster_witness :
  visualize Example.plain_host Example.text_easting "/data/tm.nc" "t"
    Example.fresh_world
  = (Raise TypeError,
     {| message_bar := [{| title := "Error"; text := StrOf TypeError; level := 2 |}];
        files := <["/tmp/tmp0001.tif" := RasterFile (new_raster 2 2)]> ∅;
        layers := [] |}).
Proof.
  apply (classification_error_leaves_empty_raster Example.plain_host
           Example.text_easting "/data/tm.nc" "t"
           (Example.var Example.text_easting "t") 2 2
           {| ma_shape := [2; 2]%nat;
              ma_cells := [(1, false); (2, false); (3, false); (4, false)]%Q |}
           (-9999)%Q TypeError Example.fresh_world).
  - discriminate.
  - vm_compute. reflexivity.
  - reflexivity.
  - vm_compute. reflexivity.
  - reflexivity.
  - reflexivity.
  - vm_compute. reflexivity.
Defined.

(** ** Where the coordinate variables come from *)

Lemma last_such_Some p names n :
  last_such p names = Some n -> n ∈ names /\ p n = true.
Proof.
  induction names as [|m names IH]; simpl; [done|].
  destruct (last_such p names) as [k|].
  - intros [= ->]. destruct IH as [Hin Hp]; [done|].
    split; [by apply list_elem_of_further | done].
  - destruct (p m) eqn:Hm; [|done]. intros [= ->].
    split; [apply list_elem_of_here | done].
Qed.

Lemma names_x_not_y ds n : names_x ds n = true -> names_y ds n = false.
Proof.
  unfold names_x, names_y. destruct (variables ds !! n) as [cv|]; [|done].
  by intros ->.
Qed.

Lemma names_x_variable ds n : names_x ds n = true -> is_Some (variables ds !! n).
Proof. unfold names_x. destruct (variables ds !! n); [eauto | done]. Qed.

Lemma names_y_variable ds n : names_y ds n = true -> is_Some (variables ds !! n).
Proof. unfold names_y. destruct (variables ds !! n); [eauto | done]. Qed.

Lemma from_option_Some_None {A : Type} (o : option A) : from_option Some None o = o.
Proof. by destruct o. Qed.

(** The names held after the two searches passed the tests. *)
Lemma resolve_axes_names ds var st :
  resolve_axes ds var = Ok st ->
  (forall n, x_name st = Some n -> n ∈ candidates var /\ names_x ds n = true)
  /\ (forall n, y_name st = Some n -> n ∈ candidates var /\ names_y ds n = true).
Proof.
  unfold resolve_axes, from_coordinates, from_dimensions, candidates.
  intros H. apply bind_Ok in H as (st0 & H0 & [= <-]).
  set (words := match v_attrs var !! "coordinates" with
                | Some (AText s) => split s
                | _ => []
                end).
  assert (st0 = foldl (classify ds) no_axes words) as ->.
  { subst words. destruct (v_attrs var !! "coordinates") as [[q|s]|];
      by simplify_eq. }
  assert (forall p o n,
            from_option Some (last_such p words) (last_such p o) = Some n ->
            n ∈ (words ++ o)%list /\ p n = true) as Hboth.
  { intros p o n. destruct (last_such p o) as [k|] eqn:Ho; simpl.
    - intros [= ->]. apply last_such_Some in Ho as [? ?].
      split; [apply elem_of_app; by right | done].
    - intros Hw. apply last_such_Some in Hw as [? ?].
      split; [apply elem_of_app; by left | done]. }
  destruct (is_none (x_var (foldl (classify ds) no_axes words))
            || is_none (y_var (foldl (classify ds) no_axes words))).
  - split; intros n.
    + rewrite !loop_x_name. simpl. rewrite from_option_Some_None. apply Hboth.
    + rewrite !loop_y_name. simpl. rewrite from_option_Some_None. apply Hboth.
  - split; intros n.
    + rewrite loop_x_name. simpl. rewrite from_option_Some_None. intros Hw.
      apply last_such_Some in Hw as [? ?].
      split; [apply elem_of_app; by left | done].
    + rewrite loop_y_name. simpl. rewrite from_option_Some_None. intros Hw.
      apply last_such_Some in Hw as [? ?].
      split; [apply elem_of_app; by left | done].
Qed.

Lemma transform_of_skew ds xv yv gt :
  transform_of ds xv yv = Ok gt -> gt !! 2%nat = Some 0%Q /\ gt !! 4%nat = Some 0%Q.
Proof.
  unfold transform_of. intros H. result_inv H. by simplify_eq.
Qed.

(** X5: whenever [get_geotransform] returns a transform, it names two
    different variables of the dataset, each a word of the [coordinates]
    attribute or a dimension name of the variable, the first passing the X
    test and the second the Y test; the two rotation terms of the transform
    are 0. *)
Theorem transform_names_two_variables (ds : dataset) (var : variable)
    (gt : list Q) (names : option (option string * option string)) :
  get_geotransform ds var = (Some gt, names) ->
  exists xn yn,
    names = Some (Some xn, Some yn)
    /\ xn ∈ candidates var /\ yn ∈ candidates var
    /\ names_x ds xn = true /\ names_y ds yn = true
    /\ xn <> yn
    /\ is_Some (variables ds !! xn) /\ is_Some (variables ds !! yn)
    /\ gt !! 2%nat = Some 0%Q /\ gt !! 4%nat = Some 0%Q.
Proof.
  unfold get_geotransform, get_geotransform_try.
  destruct (resolve_axes ds var) as [st|e] eqn:Hst; simpl; [|done].
  destruct (resolve_axes_named _ _ _ Hst) as [Hx Hy].
  destruct (resolve_axes_names _ _ _ Hst) as [Hxn Hyn].
  destruct (x_var st) as [xv|]; [|done].
  destruct (y_var st) as [yv|]; [|done].
  destruct (transform_of ds xv yv) as [gt'|e] eqn:Hgt; simpl; [|done].
  intros [= -> <-].
  destruct Hx as [xn Hxs]; [eauto|]. destruct Hy as [yn Hys]; [eauto|].
  destruct (Hxn _ Hxs) as [Hxin Hxt]. destruct (Hyn _ Hys) as [Hyin Hyt].
  destruct (transform_of_skew _ _ _ _ Hgt) as [H2 H4].
  exists xn, yn. rewrite Hxs, Hys.
  repeat split; auto using names_x_variable, names_y_variable.
  intros ->. apply names_x_not_y in Hxt. congruence.
Qed.

Lemma transform_names_two_variables_witness :
  exists xn yn,
    Some (Some "x", Some "y") = Some (Some xn, Some yn)
    /\ xn ∈ candidates (Example.var Example.north_up "t")
    /\ yn ∈ candidates (Example.var Example.north_up "t")
    /\ names_x Example.north_up xn = true /\ names_y Example.north_up yn = true
    /\ xn <> yn
    /\ is_Some (variables Example.north_up !! xn)
    /\ is_Some (variables Example.north_up !! yn)
    /\ [0; 1; 0; 10; 0; -3]%Q !! 2%nat = Some 0%Q
    /\ [0; 1; 0; 10; 0; -3]%Q !! 4%nat = Some 0%Q.
Proof.
  apply (transform_names_two_variables Example.north_up
           (Example.var Example.north_up "t")).
  vm_compute. reflexivity.
Defined.

(** X6: a [coordinates] attribute that is a number makes
    [get_geotransform] return [(None, None)], also when the dimension names
    alone would resolve both axes. *)
Theorem numeric_coordinates_attribute (ds : dataset) (var : variable) (q : Q) :
  v_attrs var !! "coordinates" = Some (ANum q) ->
  get_geotransform ds var = (None, None).
Proof.
  intros H. unfold get_geotransform, get_geotransform_try, resolve_axes,
    from_coordinates.
  by rewrite H.
Qed.

Lemma numeric_coordinates_attribute_witness :
  get_geotransform Example.numeric_coordinates
    (Example.var Example.numeric_coordinates "t") = (None, None)
  /\ x_name (foldl (classify Example.numeric_coordinates) no_axes ["lat"; "lon"])
     = Some "lon"
  /\ y_name (foldl (classify Example.numeric_coordinates) no_axes ["lat"; "lon"])
     = Some "lat".
Proof.
  split.
  - apply (numeric_coordinates_attribute Example.numeric_coordinates
             (Example.var Example.numeric_coordinates "t") 7).
    vm_compute. reflexivity.
  - split; vm_compute; reflexivity.
Defined.

(** ** Axes of one sample, of none, and two-dimensional coordinates *)

(** X7: an axis of a single sample gets the pixel size 1, which the GOES
    height does not scale although it scales the origin; a single-sample Y
    counts as ascending, so the sixth number is +1. *)
Theorem single_sample_axes (ds : dataset) (x0 y0 : Q) :
  (variables ds !! "goes_imager_projection" = None ->
   build ds [x0] [y0] = Ok [x0; 1; 0; y0; 0; 1]%Q)
  /\ (forall proj_var h,
        variables ds !! "goes_imager_projection" = Some proj_var ->
        default (ANum default_height)
                (v_attrs proj_var !! "perspective_point_height") = ANum h ->
        build ds [x0] [y0] = Ok [x0 * h; 1; 0; y0 * h; 0; 1]%Q).
Proof.
  split.
  - intros Hgoes. unfold build. by rewrite (goes_scale_absent _ _ _ Hgoes).
  - intros proj_var h Hvar Hh. unfold build.
    by rewrite (goes_scale_height _ _ _ _ _ Hvar Hh).
Qed.

Example single_sample_goes :
  get_geotransform Example.goes_point (Example.var Example.goes_point "rad")
  = (Some [20; 1; 0; 30; 0; 1]%Q, Some (Some "x", Some "y")).
Proof. vm_compute. reflexivity. Qed.

Lemma corners_empty_x xa ya y : corners xa ya [] y = Raise IndexError.
Proof. reflexivity. Qed.

Lemma corners_empty_y xa ya x : exists e, corners xa ya x [] = Raise e.
Proof.
  unfold corners. destruct (item x 0) as [x_first|e]; simpl; [|eauto].
  destruct (negb xa); simpl; [|eauto].
  destruct (item_last x); simpl; eauto.
Qed.

Lemma build_empty ds x y : x = [] \/ y = [] -> exists e, build ds x y = Raise e.
Proof.
  intros H. unfold build, goes_scale.
  destruct (variables ds !! "goes_imager_projection") as [pv|]; simpl.
  - destruct (default (ANum default_height)
                (v_attrs pv !! "perspective_point_height")) as [h|s]; simpl;
      [|eauto].
    destruct H as [-> | ->]; simpl; [eauto | apply corners_empty_y].
  - destruct H as [-> | ->]; [eauto | apply corners_empty_y].
Qed.

(** X8: when a resolved coordinate variable is zero-dimensional, or
    one-dimensional without samples, [get_geotransform] returns
    [(None, None)]: the failure inside is not an error of the call. *)
Theorem degenerate_coordinates (ds : dataset) (var : variable) (st : axes)
    (xv yv : variable) :
  resolve_axes ds var = Ok st ->
  x_var st = Some xv ->
  y_var st = Some yv ->
  shape (v_data xv) = [] \/ shape (v_data yv) = []
  \/ (length (shape (v_data xv)) = 1%nat /\ cells (v_data xv) = [])
  \/ (length (shape (v_data yv)) = 1%nat /\ cells (v_data yv) = []) ->
  get_geotransform ds var = (None, None).
Proof.
  intros Hst Hx Hy H.
  unfold get_geotransform, get_geotransform_try. rewrite Hst. simpl.
  rewrite Hx, Hy.
  assert (exists e, transform_of ds xv yv = Raise e) as [e ->]; [|done].
  unfold transform_of, read_x, read_y.
  destruct (shape (v_data xv)) as [|nx [|]] eqn:Hsx;
    destruct (shape (v_data yv)) as [|ny [|]] eqn:Hsy; simpl in *;
    repeat match goal with
    | |- context [first_row ?a] => destruct (first_row a) as [?|?] eqn:?; simpl
    | |- context [first_column ?a] => destruct (first_column a) as [?|?] eqn:?; simpl
    | |- context [as_sequence ?a] => destruct (as_sequence a) as [?|?] eqn:?; simpl
    end; eauto;
    unfold as_sequence in *;
    repeat match goal with
    | Hs : shape ?a = _, Ha : context [shape ?a] |- _ => rewrite Hs in Ha
    end; simplify_eq;
    try (apply build_empty; destruct H as [?|[?|[[? ?]|[? ?]]]]; simplify_eq; auto);
    destruct H as [?|[?|[[? ?]|[? ?]]]]; simplify_eq.
Qed.

Lemma degenerate_coordinates_witness :
  get_geotransform Example.empty_axis (Example.var Example.empty_axis "t")
  = (None, None).
Proof.
  apply (degenerate_coordinates Example.empty_axis
           (Example.var Example.empty_axis "t")
           {| x_var := Some (Example.coordinate "x" []);
              x_name := Some "x";
              y_var := Some (Example.coordinate "y" [1; 0]%Q);
              y_name := Some "y" |}
           (Example.coordinate "x" []) (Example.coordinate "y" [1; 0]%Q)).
  - vm_compute. reflexivity.
  - reflexivity.
  - reflexivity.
  - right. right. left. split; reflexivity.
Defined.

Lemma pick_column (c : nat) : forall (r : nat) (cs : list Q),
  c <> 0%nat -> length cs = (r * c)%nat ->
  length (pick r c 1 cs) = r
  /\ forall i, (i < r)%nat -> pick r c 1 cs !! i = cs !! (i * c)%nat.
Proof.
  induction r as [|r IH]; intros cs Hc Hlen; simpl; [split; [done | lia]|].
  destruct (IH (drop c cs) Hc) as [IHlen IHget]; [rewrite length_drop; lia|].
  destruct cs as [|q cs]; [simpl in Hlen; lia|].
  split; [simpl; by rewrite IHlen|].
  intros [|i] Hi; [done|]. simpl take. cbn [app lookup list_lookup].
  change ((q :: cs) !! (c + i * c)%nat) with ((q :: cs) !! (c + i * c)%nat).
  rewrite IHget by lia. by rewrite lookup_drop.
Qed.

(** X9: a two-dimensional coordinate array with [r] rows and [c] columns,
    neither 0, is read as its first row for X ([c] samples, the cells 0 to
    [c - 1]) and as its first column for Y ([r] samples, sample [i] the cell
    at [i * c]). *)
Theorem two_dimensional_coordinates (v : variable) (r c : nat) :
  shape (v_data v) = [r; c] ->
  r <> 0%nat -> c <> 0%nat ->
  length (cells (v_data v)) = (r * c)%nat ->
  (exists x, (a ← read_x v; as_sequence a) = Ok x
             /\ length x = c
             /\ forall j, (j < c)%nat -> x !! j = cells (v_data v) !! j)
  /\ (exists y, (a ← read_y v; as_sequence a) = Ok y
                /\ length y = r
                /\ forall i, (i < r)%nat -> y !! i = cells (v_data v) !! (i * c)%nat).
Proof.
  intros Hshape Hr Hc Hlen. unfold read_x, read_y, first_row, first_column.
  rewrite Hshape. cbn [length Nat.ltb Nat.leb product foldr].
  destruct (Nat.eqb_spec r 0) as [|_]; [done|].
  destruct (Nat.eqb_spec c 0) as [|_]; [done|].
  cbn [mbind result_bind as_sequence shape cells]. rewrite !Nat.mul_1_r.
  split.
  - eexists. split; [reflexivity|]. split.
    + rewrite length_take. nia.
    + intros j Hj. by rewrite lookup_take_lt.
  - eexists. split; [reflexivity|]. by apply pick_column.
Qed.

Lemma two_dimensional_coordinates_witness :
  (exists x, (a ← read_x Example.lat2d; as_sequence a) = Ok x
             /\ length x = 2%nat
             /\ forall j, (j < 2)%nat -> x !! j = [50; 51; 40; 41; 30; 31]%Q !! j)
  /\ (exists y, (a ← read_y Example.lat2d; as_sequence a) = Ok y
                /\ length y = 3%nat
                /\ forall i, (i < 3)%nat ->
                      y !! i = [50; 51; 40; 41; 30; 31]%Q !! (i * 2)%nat).
Proof.
  apply (two_dimensional_coordinates Example.lat2d 3 2);
    [reflexivity | discriminate | discriminate | reflexivity].
Defined.

Example first_column_of_lat2d :
  (a ← read_y Example.lat2d; as_sequence a) = Ok [50; 40; 30]%Q.
Proof. reflexivity. Qed.

(** ** What [visualize] shows and registers *)

Lemma quiet_ret {A : Type} (a : A) : quiet (mret a : M A).
Proof. by intros w. Qed.

Lemma quiet_lift {A : Type} (r : result A) : quiet (lift r).
Proof. by intros w. Qed.

Lemma quiet_bind {A B : Type} (m : M A) (f : A -> M B) :
  quiet m -> (forall a, quiet (f a)) -> quiet (m ≫= f).
Proof.
  intros Hm Hf w. unfold mbind, M_bind. specialize (Hm w).
  destruct (m w) as [[a|e] w1]; simpl in *; [|done].
  destruct (Hf a w1) as [-> ->]. done.
Qed.

Lemma quiet_mkstemp h : quiet (mkstemp h).
Proof. by intros w. Qed.

Lemma quiet_on_raster path f : quiet (on_raster path f).
Proof. by intros w. Qed.

Lemma quiet_Create h path xsize ysize : quiet (Create h path xsize ysize).
Proof. intros w. unfold Create. by destruct (create_ok h xsize ysize). Qed.

Lemma quiet_WriteArray h path xsize ysize data :
  quiet (WriteArray h path xsize ysize data).
Proof.
  unfold WriteArray.
  destruct (ma_shape data) as [|rows [|cols [|]]]; try by intros w.
  destruct ((cols <=? xsize)%nat && (rows <=? ysize)%nat); [|by intros w].
  destruct (write_status h =? 0)%Z; [|by intros w].
  apply quiet_bind; [apply quiet_on_raster | intros; apply quiet_ret].
Qed.

Lemma quiet_SetNoDataValue h path fill_value :
  quiet (SetNoDataValue h path fill_value).
Proof.
  unfold SetNoDataValue.
  destruct (nodata_ok h); [apply quiet_on_raster | apply quiet_ret].
Qed.

Lemma reports_bind {A : Type} h path name (m : M A) (f : A -> M unit) :
  quiet m ->
  (forall a w, reports h path name w (f a w)) ->
  forall w, reports h path name w ((m ≫= f) w).
Proof.
  intros Hm Hf w. unfold mbind, M_bind. destruct (Hm w) as [Hbar Hlay].
  destruct (m w) as [[a|e] w1]; simpl in *; [|done].
  specialize (Hf a w1). unfold reports in *. by rewrite Hbar, Hlay in Hf.
Qed.

Lemma reports_raise h path name e w : reports h path name w (raise e w).
Proof. done. Qed.

Lemma write_raster_to_reports h ds fp vn var path w :
  reports h path (vn ++ " from " ++ basename fp) w
    (write_raster_to h ds fp vn var path w).
Proof.
  revert w. unfold write_raster_to.
  apply reports_bind; [apply quiet_lift|]. intros [data fill].
  destruct (negb (gtiff_driver h)); [intros; apply reports_raise|].
  apply reports_bind; [apply quiet_lift|]. intros xs.
  apply reports_bind; [apply quiet_lift|]. intros ys.
  apply reports_bind; [apply quiet_Create|]. intros out_ds.
  destruct (negb out_ds); [intros; apply reports_raise|].
  apply reports_bind; [apply quiet_lift|]. intros [srs gm].
  apply reports_bind.
  { destruct srs; [apply quiet_on_raster | apply quiet_ret]. }
  intros _. destruct (get_geotransform ds var) as [gt names].
  apply reports_bind.
  { destruct gt; [apply quiet_on_raster | apply quiet_ret]. }
  intros _. destruct (negb (band_ok h)); [intros; apply reports_raise|].
  apply reports_bind; [apply quiet_WriteArray|]. intros status.
  destruct (negb (status =? 0)%Z); [intros; apply reports_raise|].
  apply reports_bind; [apply quiet_SetNoDataValue|]. intros _.
  apply reports_bind; [apply quiet_on_raster|]. intros _ w.
  unfold reports. cbv zeta. by destruct (layer_valid h).
Qed.

Lemma write_raster_reports h ds fp vn var w :
  reports h (temp_tif h) (vn ++ " from " ++ basename fp) w
    (write_raster h ds fp vn var w).
Proof.
  unfold write_raster, mbind, M_bind, mkstemp.
  exact (write_raster_to_reports h ds fp vn var (temp_tif h) _).
Qed.

(** How the body of the [try] block ends, for any request. *)
Lemma visualize_try_ends h ds fp vn w :
  match (visualize_try h ds fp vn w).1 with
  | Raise _ =>
      message_bar (visualize_try h ds fp vn w).2 = message_bar w
      /\ layers (visualize_try h ds fp vn w).2 = layers w
  | Ok _ =>
      layers (visualize_try h ds fp vn w).2 = layers w
      \/ (layer_valid h = true
          /\ message_bar (visualize_try h ds fp vn w).2 = message_bar w
          /\ layers (visualize_try h ds fp vn w).2
             = layers w ++ [(temp_tif h, (vn ++ " from " ++ basename fp)%string)])%list
  end.
Proof.
  unfold visualize_try. destruct (String.eqb vn ""); [by left|].
  destruct (variables ds !! vn) as [var|]; [|done].
  destruct (length (shape (v_data var)) <? 2)%nat; [by left|].
  pose proof (write_raster_reports h ds fp vn var w) as H. unfold reports in H.
  destruct (write_raster h ds fp vn var w) as [[[]|e] w1]; simpl in *; [|done].
  destruct (layer_valid h); [right; by destruct H | left; by destruct H].
Qed.

(** X12: whenever [visualize] raises, the exception is the one raised
    inside, the message bar has gained exactly one message, the error
    message of that exception, and no layer was added. *)
Theorem exception_reported_once (h : host) (ds : dataset) (fp vn : string)
    (w w' : world) (e : exn) :
  visualize h ds fp vn w = (Raise e, w') ->
  (visualize_try h ds fp vn w).1 = Raise e
  /\ message_bar w' = (message_bar w ++ [error_message e])%list
  /\ layers w' = layers w.
Proof.
  unfold visualize, try_except.
  pose proof (visualize_try_ends h ds fp vn w) as H.
  destruct (visualize_try h ds fp vn w) as [[[]|e0] w1]; simpl in *; [done|].
  destruct H as [Hbar Hlay]. unfold mbind, M_bind, pushMessage, raise.
  intros [= <- <-]. simpl. by rewrite Hbar, Hlay.
Qed.

Lemma exception_reported_once_witness :
  (visualize_try Example.plain_host Example.cube "/data/c.nc" "t"
     Example.fresh_world).1 = Raise ValueError
  /\ message_bar (visualize Example.plain_host Example.cube "/data/c.nc" "t"
                    Example.fresh_world).2
     = ([] ++ [error_message ValueError])%list
  /\ layers (visualize Example.plain_host Example.cube "/data/c.nc" "t"
               Example.fresh_world).2 = [].
Proof.
  apply (exception_reported_once Example.plain_host Example.cube "/data/c.nc" "t"
           Example.fresh_world _ ValueError).
  vm_compute. reflexivity.
Defined.

(** X13: [visualize] adds at most one layer, and adds it only when it
    completes and QGIS finds the layer valid: the layers are as before the
    call, or the call returned, the layer is valid and the one new layer is
    the temporary file under the name "variable from file". *)
Theorem layer_only_when_valid (h : host) (ds : dataset) (fp vn : string)
    (w : world) :
  layers (visualize h ds fp vn w).2 = layers w
  \/ ((visualize h ds fp vn w).1 = Ok tt
      /\ layer_valid h = true
      /\ layers (visualize h ds fp vn w).2
         = (layers w ++ [(temp_tif h, (vn ++ " from " ++ basename fp)%string)])%list).
Proof.
  unfold visualize, try_except.
  pose proof (visualize_try_ends h ds fp vn w) as H.
  destruct (visualize_try h ds fp vn w) as [[[]|e0] w1]; simpl in *.
  - destruct H as [H | (Hv & _ & H)]; [by left | by right].
  - left. by destruct H.
Qed.

(** ** When the pipeline completes *)

(** X14: for a variable of rank two or more, [visualize] completes exactly
    when the variable has two dimensions, [var[:]] returns the data, the
    fill value, the factor and the offset convert, the GTiff driver
    exists, the raster is created, the classification of the projection
    does not raise, the band exists and the write returns 0; no
    geotransform is needed, and a refused no-data value or an invalid layer
    does not make it raise. *)
Theorem completes_exactly_when (h : host) (ds : dataset) (fp vn : string)
    (var : variable) (w : world) :
  vn <> "" ->
  variables ds !! vn = Some var ->
  (2 <= length (shape (v_data var)))%nat ->
  (visualize h ds fp vn w).1 = Ok tt
  <-> exists rows cols mask fill scale offset srs gm,
        shape (v_data var) = [rows; cols]
        /\ getitem_mask h var = Ok mask
        /\ read_fill_value h var = Ok fill
        /\ py_float h (default (ANum 1) (v_attrs var !! "scale_factor")) = Ok scale
        /\ py_float h (default (ANum 0) (v_attrs var !! "add_offset")) = Ok offset
        /\ gtiff_driver h = true
        /\ create_ok h cols rows = true
        /\ get_projection_info ds = Ok (srs, gm)
        /\ band_ok h = true
        /\ write_status h = 0%Z.
Proof.
  intros Hvn Hvar Hrank. split.
  - intros Hdone.
    destruct (visualize_Ok_world _ _ _ _ _ _ Hvn Hvar Hrank Hdone)
      as (rows & cols & data & fill' & srs & gm
          & Hshape & Hn & Hdrv & Hcreate & Hinfo & Hband & Hstatus & _).
    apply normalize_Ok in Hn
      as (mask & fill & scale & offset & Hm & Hf & Hs & Ho & _ & _).
    exists rows, cols, mask, fill, scale, offset, srs, gm. by repeat split.
  - intros (rows & cols & mask & fill & scale & offset & srs & gm
            & Hshape & Hm & Hf & Hs & Ho & Hdrv & Hcreate & Hinfo & Hband & Hstatus).
    assert (exists data fill', normalize h var = Ok (data, fill'))
      as (data & fill' & Hn).
    { unfold normalize, getitem. rewrite Hm. cbn [mbind result_bind].
      rewrite Hf, Hs, Ho. by eexists _, _. }
    destruct (get_geotransform ds var) as [gt names] eqn:Hgt.
    by rewrite (visualize_completes _ _ _ _ _ _ _ _ _ _ _ _ _ w
                  Hvn Hvar Hshape Hn Hinfo Hgt Hdrv Hcreate Hband Hstatus).
Qed.

Lemma completes_exactly_when_witness :
  (visualize Example.plain_host Example.north_up "/data/sst.nc" "t"
     Example.fresh_world).1 = Ok tt
  /\ (visualize Example.plain_host Example.numeral_scale "/data/n.nc" "t"
        Example.fresh_world).1 <> Ok tt.
Proof.
  split.
  - apply (proj2 (completes_exactly_when Example.plain_host Example.north_up
                    "/data/sst.nc" "t" (Example.var Example.north_up "t")
                    Example.fresh_world ltac:(discriminate) eq_refl
                    ltac:(vm_compute; lia))).
    exists 4%nat, 4%nat, [], (-9999)%Q, 1%Q, 0%Q, None, None.
    repeat split; vm_compute; reflexivity.
  - intros Hdone.
    apply (proj1 (completes_exactly_when Example.plain_host Example.numeral_scale
                    "/data/n.nc" "t" (Example.var Example.numeral_scale "t")
                    Example.fresh_world ltac:(discriminate) eq_refl
                    ltac:(vm_compute; lia))) in Hdone
      as (rows & cols & mask & fill & scale & offset & srs & gm & _ & Hm & _).
    vm_compute in Hm. discriminate.
Defined.

(** With [scale_factor] the text [2.5], which [float()] would accept,
    netCDF4 cannot scale the data and [var[:]] raises [TypeError]. *)
Example numeral_scale_factor_aborts :
  (visualize Example.plain_host Example.numeral_scale "/data/n.nc" "t"
     Example.fresh_world).1 = Raise TypeError
  /\ py_float Example.plain_host (AText "2.5") = Ok (25 # 10)%Q.
Proof. split; vm_compute; reflexivity. Qed.

(** ** The files [visualize] touches *)

(** The pipeline keeps what its steps on the file, the message bar and
    the layers keep. *)
Lemma write_raster_to_keeps (I : world -> Prop) h ds fp vn var path :
  (forall f, keeps I (on_raster path f)) ->
  (forall xs ys, keeps I (Create h path xs ys)) ->
  (forall t x l, keeps I (pushMessage t x l)) ->
  (forall p n, keeps I (addMapLayer p n)) ->
  keeps I (write_raster_to h ds fp vn var path).
Proof.
  intros Hon Hcreate Hpush Hadd. unfold write_raster_to.
  apply keeps_lift_bind. intros [data fill] _.
  destruct (negb (gtiff_driver h)); [apply keeps_raise|].
  apply keeps_lift_bind. intros xs _.
  apply keeps_lift_bind. intros ys _.
  apply keeps_bind; [apply Hcreate|]. intros out_ds.
  destruct (negb out_ds); [apply keeps_raise|].
  apply keeps_lift_bind. intros [srs gm] _.
  apply keeps_bind; [destruct srs; [apply Hon | apply keeps_ret]|].
  intros _. destruct (get_geotransform ds var) as [gt names].
  apply keeps_bind; [destruct gt; [apply Hon | apply keeps_ret]|].
  intros _. destruct (negb (band_ok h)); [apply keeps_raise|].
  apply keeps_bind.
  { unfold WriteArray.
    destruct (ma_shape data) as [|rows [|cols [|]]]; try apply keeps_raise.
    destruct ((cols <=? xs)%nat && (rows <=? ys)%nat); [|apply keeps_raise].
    destruct (write_status h =? 0)%Z; [|apply keeps_ret].
    apply keeps_bind; [apply Hon | intros; apply keeps_ret]. }
  intros status. destruct (negb (status =? 0)%Z); [apply keeps_raise|].
  apply keeps_bind.
  { unfold SetNoDataValue. destruct (nodata_ok h); [apply Hon | apply keeps_ret]. }
  intros _. apply keeps_bind; [apply Hon|]. intros _.
  cbv zeta. destruct (layer_valid h); [apply Hadd | apply Hpush].
Qed.

(** X15: [visualize] touches no file but its temporary one: at every other
    path the files are what they were before the call, however it ends. *)
Theorem other_files_untouched (h : host) (ds : dataset) (fp vn : string)
    (w : world) (p : string) :
  p <> temp_tif h ->
  files (visualize h ds fp vn w).2 !! p = files w !! p.
Proof.
  intros Hp.
  set (I := fun w' : world => files w' !! p = files w !! p).
  assert (forall t x l, keeps I (pushMessage t x l)) as Hpush
    by (intros t x l w1 Hw1; exact Hw1).
  assert (forall q n, keeps I (addMapLayer q n)) as Hadd
    by (intros q n w1 Hw1; exact Hw1).
  change (I (visualize h ds fp vn w).2). unfold visualize.
  apply try_except_final;
    [|intros e; apply keeps_bind; [apply Hpush | intros; apply keeps_raise]].
  unfold visualize_try. destruct (String.eqb vn ""); [done|].
  destruct (variables ds !! vn) as [var|]; [|done].
  destruct (length (shape (v_data var)) <? 2)%nat; [done|].
  unfold write_raster, mbind, M_bind, mkstemp.
  apply write_raster_to_keeps; [| |exact Hpush|exact Hadd|].
  - intros f w1 Hw1. unfold I in *. cbn [snd on_raster files].
    by rewrite lookup_alter_ne.
  - intros xs ys w1 Hw1. unfold I, Create in *.
    destruct (create_ok h xs ys); [|done]. cbn [snd files].
    by rewrite lookup_insert_ne.
  - unfold I. cbn [files]. by rewrite lookup_insert_ne.
Qed.

Lemma other_files_untouched_witness :
  files (visualize Example.plain_host Example.north_up "/data/sst.nc" "t"
           Example.busy_world).2 !! "/data/sst.nc"
  = files Example.busy_world !! "/data/sst.nc".
Proof.
  apply (other_files_untouched Example.plain_host Example.north_up
           "/data/sst.nc" "t" Example.busy_world "/data/sst.nc").
  discriminate.
Defined.

(** X16: once past the rank check, [visualize] leaves a file at the
    temporary path whether it completes or raises: the file is never
    removed. *)
Theorem temporary_file_stays (h : host) (ds : dataset) (fp vn : string)
    (var : variable) (w : world) :
  vn <> "" ->
  variables ds !! vn = Some var ->
  (2 <= length (shape (v_data var)))%nat ->
  is_Some (files (visualize h ds fp vn w).2 !! temp_tif h).
Proof.
  intros Hvn Hvar Hrank.
  set (I := fun w' : world => is_Some (files w' !! temp_tif h)).
  change (I (visualize h ds fp vn w).2). unfold visualize.
  apply try_except_final.
  - rewrite (visualize_try_named _ _ _ _ _ Hvn Hvar).
    destruct (Nat.ltb_spec (length (shape (v_data var))) 2); [lia|].
    unfold write_raster, mbind, M_bind, mkstemp.
    apply write_raster_to_keeps;
      [| |intros t x l w1 Hw1; exact Hw1|intros q n w1 Hw1; exact Hw1|].
    + intros f w1 Hw1. unfold I in *. cbn [snd on_raster files].
      rewrite lookup_alter_eq. by apply fmap_is_Some.
    + intros xs ys w1 Hw1. unfold I, Create in *.
      destruct (create_ok h xs ys); [|done]. cbn [snd files].
      by rewrite lookup_insert_eq.
    + unfold I. cbn [files]. by rewrite lookup_insert_eq.
  - intros e. apply keeps_bind;
      [intros w1 Hw1; exact Hw1 | intros; apply keeps_raise].
Qed.

Lemma temporary_file_stays_witness :
  is_Some (files (visualize Example.plain_host Example.cube "/data/c.nc" "t"
                    Example.fresh_world).2 !! "/tmp/tmp0001.tif").
Proof.
  apply (temporary_file_stays Example.plain_host Example.cube "/data/c.nc" "t"
           (Example.var Example.cube "t") Example.fresh_world).
  - discriminate.
  - vm_compute. reflexivity.
  - vm_compute. lia.
Defined.

(** ** Fill cells, a refused no-data value, a failed write *)

(** X17: a cell whose raw value, cast to single precision, equals the fill
    value is written as it is stored, without scale and offset (the masked
    arithmetic leaves it alone), while the no-data value of the band is the
    fill value scaled and shifted. *)
Theorem fill_cells_written_unscaled (h : host) (ds : dataset) (fp vn : string)
    (var : variable) (fill scale offset : Q) (w : world) :
  vn <> "" ->
  variables ds !! vn = Some var ->
  (2 <= length (shape (v_data var)))%nat ->
  read_fill_value h var = Ok fill ->
  py_float h (default (ANum 1) (v_attrs var !! "scale_factor")) = Ok scale ->
  py_float h (default (ANum 0) (v_attrs var !! "add_offset")) = Ok offset ->
  raster_at (temp_tif h)
    (fun r =>
       forall px i raw,
         r_pixels r = Some px ->
         cells (v_data var) !! i = Some raw ->
         Qeq_bool (float32 h raw) fill = true ->
         px !! i = Some (float32 h raw))
    (visualize h ds fp vn w).2.
Proof.
  intros Hvn Hvar Hrank Hfill Hscale Hoffset.
  apply (visualize_raster_at _ _ _ _ _ _ _ Hvn Hvar Hrank).
  apply write_raster_raster_at; try done.
  intros data fill' rows cols r Hn _ _.
  apply normalize_Ok in Hn as (mask & f & s & o & _ & Hf & Hs & Ho & _ & ->).
  rewrite Hfill in Hf. rewrite Hscale in Hs. rewrite Hoffset in Ho.
  simplify_eq.
  intros px i raw Hpx Hi Heq. cbn [with_pixels r_pixels] in Hpx.
  apply (inj Some) in Hpx. subst px.
  by rewrite (normalized_cell _ _ _ _ _ _ _ _ Hi), Heq, orb_true_r.
Qed.

Lemma fill_cells_written_unscaled_witness :
  raster_at "/tmp/tmp0001.tif"
    (fun r =>
       forall px i raw,
         r_pixels r = Some px ->
         cells (v_data (Example.var Example.packed "t")) !! i = Some raw ->
         Qeq_bool raw 3 = true ->
         px !! i = Some raw)
    (visualize Example.plain_host Example.packed "/data/p.nc" "t"
       Example.fresh_world).2.
Proof.
  apply (fill_cells_written_unscaled Example.plain_host Example.packed
           "/data/p.nc" "t" (Example.var Example.packed "t") 3 2 1
           Example.fresh_world).
  - discriminate.
  - vm_compute. reflexivity.
  - vm_compute. lia.
  - vm_compute. reflexivity.
  - vm_compute. reflexivity.
  - vm_compute. reflexivity.
Defined.

(** X18: when GDAL refuses the no-data value, [visualize] still completes:
    the raster has its pixels and statistics and no no-data value. *)
Theorem refused_nodata_is_not_fatal (h : host) (ds : dataset) (fp vn : string)
    (var : variable) (rows cols : nat) (data : masked_array) (fill : Q)
    (srs : option srs) (gm : option string) (w : world) :
  vn <> "" ->
  variables ds !! vn = Some var ->
  shape (v_data var) = [rows; cols] ->
  normalize h var = Ok (data, fill) ->
  get_projection_info ds = Ok (srs, gm) ->
  gtiff_driver h = true ->
  create_ok h cols rows = true ->
  band_ok h = true ->
  write_status h = 0%Z ->
  nodata_ok h = false ->
  (visualize h ds fp vn w).1 = Ok tt
  /\ exists r,
       files (visualize h ds fp vn w).2 !! temp_tif h = Some (RasterFile r)
       /\ r_nodata r = None
       /\ r_pixels r = Some (map fst (ma_cells data))
       /\ r_statistics r = true.
Proof.
  intros Hvn Hvar Hshape Hn Hinfo Hdrv Hcreate Hband Hstatus Hnd.
  destruct (get_geotransform ds var) as [gt names] eqn:Hgt.
  rewrite (visualize_completes _ _ _ _ _ _ _ _ _ _ _ _ _ w
             Hvn Hvar Hshape Hn Hinfo Hgt Hdrv Hcreate Hband Hstatus).
  split; [done|]. eexists. cbn [snd files].
  rewrite lookup_insert_eq. split; [reflexivity|].
  unfold finished_raster. by rewrite Hnd.
Qed.

Lemma refused_nodata_is_not_fatal_witness :
  (visualize Example.refusing_host Example.bare "/data/b.nc" "t"
     Example.fresh_world).1 = Ok tt
  /\ exists r,
       files (visualize Example.refusing_host Example.bare "/data/b.nc" "t"
                Example.fresh_world).2 !! "/tmp/tmp0001.tif"
       = Some (RasterFile r)
       /\ r_nodata r = None
       /\ r_pixels r = Some [1; 2; 3; 4]%Q
       /\ r_statistics r = true.
Proof.
  apply (refused_nodata_is_not_fatal Example.refusing_host Example.bare
           "/data/b.nc" "t" (Example.var Example.bare "t") 2 2
           {| ma_shape := [2; 2]%nat;
              ma_cells := [(1, false); (2, false); (3, false); (4, false)]%Q |}
           (-9999)%Q None None Example.fresh_world);
    first [discriminate | reflexivity | vm_compute; reflexivity].
Defined.

(** X19: when the write returns a status other than 0, [visualize] raises
    a [RuntimeError] that carries the status; the raster stays allocated,
    with projection and geotransform set, and has no pixels, no no-data
    value and no statistics; no layer is added. *)
Theorem failed_write_leaves_unwritten_raster (h : host) (ds : dataset)
    (fp vn : string) (var : variable) (rows cols : nat) (data : masked_array)
    (fill : Q) (srs : option srs) (gm : option string) (gt : option (list Q))
    (names : option (option string * option string)) (w : world) :
  vn <> "" ->
  variables ds !! vn = Some var ->
  shape (v_data var) = [rows; cols] ->
  normalize h var = Ok (data, fill) ->
  get_projection_info ds = Ok (srs, gm) ->
  get_geotransform ds var = (gt, names) ->
  gtiff_driver h = true ->
  create_ok h cols rows = true ->
  band_ok h = true ->
  write_status h <> 0%Z ->
  let e := RuntimeError ("Failed to write array to band: " ++ pretty (write_status h)) in
  visualize h ds fp vn w
  = (Raise e,
     {| message_bar := (message_bar w ++ [error_message e])%list;
        files := <[temp_tif h := RasterFile (unwritten_raster rows cols srs gt)]>
                   (files w);
        layers := layers w |}).
Proof.
  intros Hvn Hvar Hshape Hn Hinfo Hg Hdrv Hcreate Hband Hstatus e.
  pose proof (normalize_shape _ _ _ _ Hn) as Hs. rewrite Hshape in Hs.
  apply Z.eqb_neq in Hstatus.
  unfold visualize, try_except.
  rewrite (visualize_try_named _ _ _ _ _ Hvn Hvar), Hshape.
  cbn [length Nat.ltb Nat.leb].
  unfold write_raster, write_raster_to, mbind, M_bind, mkstemp, lift, extent,
    Create, SetProjection, SetGeoTransform, WriteArray, on_raster, pushMessage,
    raise, mret, M_ret.
  rewrite Hn, Hdrv, Hs, Hinfo, Hg, Hband. cbn [negb lookup list_lookup].
  rewrite Hcreate. cbn [negb]. rewrite !Nat.leb_refl. cbn [andb].
  rewrite Hstatus.
  destruct srs as [s|], gt as [g|]; cbn [message_bar files layers];
    rewrite Hstatus; cbn [negb message_bar files layers];
    rewrite ?alter_insert_eq, ?insert_insert_eq; reflexivity.
Qed.

Lemma failed_write_leaves_unwritten_raster_witness :
  visualize Example.failing_host Example.north_up "/data/sst.nc" "t"
    Example.fresh_world
  = (Raise (RuntimeError "Failed to write array to band: 3"),
     {| message_bar :=
          [error_message (RuntimeError "Failed to write array to band: 3")];
        files :=
          <["/tmp/tmp0001.tif" :=
              RasterFile (unwritten_raster 4 4 None (Some [0; 1; 0; 10; 0; -3]%Q))]> ∅;
        layers := [] |}).
Proof.
  apply (failed_write_leaves_unwritten_raster Example.failing_host
           Example.north_up "/data/sst.nc" "t"
           (Example.var Example.north_up "t") 4 4
           (ma_add (ma_mul (masked_equal
                              (under_mask (v_data (Example.var Example.north_up "t")) [])
                              (-9999))
                           1) 0)
           (-9999 * 1 + 0)%Q None None (Some [0; 1; 0; 10; 0; -3]%Q)
           (Some (Some "x", Some "y")) Example.fresh_world);
    first [discriminate | reflexivity | vm_compute; reflexivity].
Defined.

(** X20: for an empty name [visualize] returns and changes nothing; for a
    name that is not a variable of the dataset it raises [KeyError] with
    that name and shows it, and makes no file and no layer. *)
Theorem no_such_variable (h : host) (ds : dataset) (fp vn : string) (w : world) :
  visualize h ds fp "" w = (Ok tt, w)
  /\ (vn <> "" -> variables ds !! vn = None ->
      visualize h ds fp vn w
      = (Raise (KeyError vn),
         {| message_bar := (message_bar w ++ [error_message (KeyError vn)])%list;
            files := files w;
            layers := layers w |})).
Proof.
  split; [reflexivity|].
  intros Hvn Hvar. apply String.eqb_neq in Hvn.
  unfold visualize, try_except, visualize_try. by rewrite Hvn, Hvar.
Qed.

(** ** What the transform does not look at *)

(** X21: the GOES scaling of the coordinates depends on the presence of a
    variable named [goes_imager_projection] alone, not on the projection
    that is classified: with a [crs] variable in the same dataset the
    projection is read from [crs] and the coordinates are still multiplied
    by the satellite height. *)
Theorem goes_scaling_ignores_classification (ds : dataset)
    (crs proj_var : variable) (h : Q) (x y : list Q) :
  variables ds !! "crs" = Some crs ->
  variables ds !! "goes_imager_projection" = Some proj_var ->
  default (ANum default_height) (v_attrs proj_var !! "perspective_point_height")
  = ANum h ->
  get_projection_info ds
  = (srs ← build_srs (v_attrs crs); Ok (Some srs, Some (v_name crs)))
  /\ build ds x y
     = corners (ascending x) (ascending y)
         (map (fun v => v * h)%Q x) (map (fun v => v * h)%Q y).
Proof.
  intros Hcrs Hgoes Hh. split.
  - unfold get_projection_info, proj_vars, find_proj_var. by rewrite Hcrs.
  - unfold build. by rewrite (goes_scale_height _ _ _ _ _ Hgoes Hh).
Qed.

Lemma goes_scaling_ignores_classification_witness :
  get_projection_info Example.crs_and_goes = Ok (Some (SrsEPSG 4326), Some "crs")
  /\ build Example.crs_and_goes [0; 1]%Q [1; 0]%Q
     = Ok [0 * 10; Qabs (1 * 10 - 0 * 10); 0; 1 * 10; 0;
           - Qabs (0 * 10 - 1 * 10)]%Q.
Proof.
  apply (goes_scaling_ignores_classification Example.crs_and_goes
           (Example.var Example.crs_and_goes "crs")
           (Example.var Example.crs_and_goes "goes_imager_projection")
           10 [0; 1]%Q [1; 0]%Q); vm_compute; reflexivity.
Defined.

(** X22: for X stored ascending and Y stored descending the transform is
    computed from the first two samples of each axis alone: the samples
    after them are never read, so an unevenly spaced axis gives the same
    transform as its first two samples. *)
Theorem only_first_two_samples (ds : dataset) (x0 x1 : Q) (xs : list Q)
    (y0 y1 : Q) (ys : list Q) :
  Qgtb x1 x0 = true ->
  Qgtb y1 y0 = false ->
  build ds (x0 :: x1 :: xs) (y0 :: y1 :: ys) = build ds [x0; x1] [y0; y1].
Proof.
  intros Hx Hy. unfold build, goes_scale. cbn [ascending]. rewrite Hx, Hy.
  destruct (variables ds !! "goes_imager_projection") as [pv|]; cbn [mbind result_bind].
  - destruct (default (ANum default_height)
                (v_attrs pv !! "perspective_point_height")) as [h|s];
      cbn [mbind result_bind]; [|done].
    cbn [map]. by rewrite !corners_two.
  - by rewrite !corners_two.
Qed.

Lemma only_first_two_samples_witness :
  build Example.north_up [0; 1; 5; 50]%Q [10; 7; 6; -20]%Q
  = build Example.north_up [0; 1]%Q [10; 7]%Q.
Proof.
  apply (only_first_two_samples Example.north_up 0 1 [5; 50]%Q 10 7 [6; -20]%Q);
    reflexivity.
Defined.
